(** * PedMed: creatinine clearance, one-compartment simulation and dose evaluation

    A shallow embedding of [calculateClearance] and [simulatePK] of
    [src/script.js].  JavaScript numbers are IEEE 754 binary64 values, so
    they are modelled by Rocq's primitive floats: [+], [-], [*], [/] and the
    comparisons are the very operations the script performs, with infinities,
    signed zeros and NaN.  The two host functions whose result the language
    standard leaves to the implementation are parameters of the development:
    [Math.exp], and the decimal rendering of numbers that are not integers
    below 2^53. *)

From Stdlib Require Import ZArith List String Ascii Bool Lia Floats DecimalString.
Import ListNotations.

Set Warnings "-inexact-float".

Local Open Scope float_scope.

(** ** Completions: a call returns a value or throws *)

Inductive exn : Type :=
| Error (message : string)   (* [throw new Error(message)] *)
| TypeError                  (* property access on [undefined] *)
| RangeError.                (* invalid array length *)

Inductive outcome (A : Type) : Type :=
| Return (a : A)
| Throw (e : exn).
Arguments Return {A} a.
Arguments Throw {A} e.

Definition bind {A B : Type} (c : outcome A) (k : A -> outcome B) : outcome B :=
  match c with
  | Return a => k a
  | Throw e => Throw e
  end.

Notation "x <- c ;; k" := (bind c (fun x => k))
  (at level 61, c at next level, right associativity).

Definition returns {A : Type} (c : outcome A) : bool :=
  match c with Return _ => true | Throw _ => false end.

(** ** The numbers of the host language *)

Module JS.

(** The float of a natural number below 2^63 (array indices, the integer
    results of rounding): exact below 2^53. *)
Definition of_Z (z : Z) : float := of_uint63 (Uint63.of_Z z).

(** The integer [m * 2^e] when [e >= 0], and its quotient and remainder by
    [2^-e] otherwise: the magnitude of a finite float with mantissa [m] and
    exponent [e], split into integer part and fractional numerator. *)
Definition int_part (m : positive) (e : Z) : Z :=
  if (0 <=? e)%Z then Z.shiftl (Zpos m) e else Z.shiftr (Zpos m) (- e).

Definition frac_part (m : positive) (e : Z) : Z :=
  if (0 <=? e)%Z then 0%Z else Z.land (Zpos m) (Z.ones (- e)).

(** The integer nearest to [n / 2^k], the larger one on a tie. *)
Definition nearest (n k : Z) : Z := ((2 * n + Z.shiftl 1 k) / Z.shiftl 2 k)%Z.

(** [Math.ceil]: the smallest integral number not below [x]; a result in
    (-1, 0] is -0, and NaN, zeros, infinities and integers are kept. *)
Definition Math_ceil (x : float) : float :=
  match Prim2SF x with
  | S754_finite s m e =>
      if (0 <=? e)%Z then x
      else
        let q := int_part m e in
        if s then (if (q =? 0)%Z then neg_zero else - of_Z q)
        else of_Z (if (frac_part m e =? 0)%Z then q else q + 1)
  | _ => x
  end.

(** [Math.round]: the integral number closest to [x], the one closer to
    +infinity on a tie; a result in [-0.5, 0) is -0. *)
Definition Math_round (x : float) : float :=
  match Prim2SF x with
  | S754_finite s m e =>
      if (0 <=? e)%Z then x
      else
        let n := nearest (if s then Zneg m else Zpos m) (- e) in
        if (n =? 0)%Z then (if s then neg_zero else zero)
        else if (n <? 0)%Z then - of_Z (- n) else of_Z n
  | _ => x
  end.

(** [Math.max] of a list of numbers: NaN as soon as one is met, and +0 is
    larger than -0. *)
Definition is_pos_zero (x : float) : bool := is_zero x && negb (get_sign x).
Definition is_neg_zero (x : float) : bool := is_zero x && get_sign x.

Fixpoint Math_max_from (highest : float) (numbers : list float) : float :=
  match numbers with
  | [] => highest
  | number :: rest =>
      if is_nan number then nan
      else if is_pos_zero number && is_neg_zero highest then Math_max_from zero rest
      else if highest <? number then Math_max_from number rest
      else Math_max_from highest rest
  end.

Definition Math_max (a b : float) : float := Math_max_from neg_infinity [a; b].

(** Truthiness of a number: every number but 0, -0 and NaN. *)
Definition truthy (x : float) : bool := negb (is_zero x || is_nan x).

(** [ToLength] of a number: truncated, and clamped to [0, 2^53 - 1]. *)
Definition max_safe_integer : Z := (2 ^ 53 - 1)%Z.
Definition max_array_length : Z := (2 ^ 32 - 1)%Z.

Definition ToLength (x : float) : Z :=
  match Prim2SF x with
  | S754_finite false m e => Z.min (int_part m e) max_safe_integer
  | S754_infinity false => max_safe_integer
  | _ => 0%Z
  end.

(** Decimal digits of a non-negative integer. *)
Definition digits (n : Z) : string := NilZero.string_of_uint (N.to_uint (Z.to_N n)).

(** [n] hundredths written with two decimals: at least one digit before the
    point. *)
Definition hundredths (n : Z) : string :=
  let frac := (n mod 100)%Z in
  (digits (n / 100) ++ "." ++ digits (frac / 10) ++ digits (frac mod 10))%string.

Section Host.

(** The host's [Number::toString] where the standard asks for the shortest
    digits that read back as the same number: non-integers, and magnitudes
    of 2^53 and over. *)
Variable Number_toString_host : float -> string.

(** [Number::toString], as the template literals apply it. *)
Definition Number_toString (x : float) : string :=
  match Prim2SF x with
  | S754_nan => "NaN"%string
  | S754_zero _ => "0"%string
  | S754_infinity s => if s then "-Infinity"%string else "Infinity"%string
  | S754_finite s m e =>
      if (frac_part m e =? 0)%Z && (int_part m e <? 2 ^ 53)%Z
      then ((if s then "-" else "") ++ digits (int_part m e))%string
      else Number_toString_host x
  end.

(** [x.toFixed(2)]: the integer [n] with [n / 100] closest to [x], the
    larger one on a tie, written with two decimals; [Number::toString] from
    1e21 on and for NaN and the infinities. *)
Definition toFixed2 (x : float) : string :=
  match Prim2SF x with
  | S754_finite s m e =>
      if 1e21 <=? abs x then Number_toString x
      else
        let n :=
          if (0 <=? e)%Z then (100 * int_part m e)%Z
          else nearest (100 * Zpos m) (- e) in
        ((if s then "-" else "") ++ hundredths n)%string
  | S754_zero _ => "0.00"%string
  | _ => Number_toString x
  end.

End Host.

End JS.

(** ** Data

    The antibiotic and the age unit are the values of the form's selects;
    the [switch] of [simulatePK] has a case for each antibiotic and no
    default.  A measured level and a random time come as a number or as
    [null], here [None]; the level type is a string, empty when no type
    is chosen. *)

Inductive antibiotic : Type :=
| vancomycin_intermittent | vancomycin_continuous | gentamicin | amikacin | tobramycin.

Inductive AgeUnit : Type := days | months | years.

Definition is_months (u : AgeUnit) : bool := match u with months => true | _ => false end.
Definition is_years (u : AgeUnit) : bool := match u with years => true | _ => false end.

(** An entry of [therapeuticRanges]; a property the entry lacks reads as
    [undefined], here [None]. *)
Record ranges : Type := {
  peak : option (float * float);
  trough : option (float * float);
  steady : option (float * float);
  auc_range : option (float * float)
}.

Definition therapeuticRanges (a : antibiotic) : ranges :=
  match a with
  | vancomycin_intermittent =>
      {| peak := Some (25, 40); trough := Some (10, 20); steady := None; auc_range := Some (400, 600) |}
  | vancomycin_continuous =>
      {| peak := None; trough := None; steady := Some (20, 25); auc_range := Some (400, 600) |}
  | gentamicin =>
      {| peak := Some (5, 10); trough := Some (0, 2); steady := None; auc_range := None |}
  | amikacin =>
      {| peak := Some (20, 30); trough := Some (0, 5); steady := None; auc_range := None |}
  | tobramycin =>
      {| peak := Some (5, 10); trough := Some (0, 2); steady := None; auc_range := None |}
  end.

(** ** [calculateClearance] *)

Definition clearance_message : string := "Peso e creatinina devem ser maiores que 0.".

Definition ageInDays (ageValue : float) (ageUnit : AgeUnit) : float :=
  match ageUnit with
  | days => ageValue
  | months => ageValue * 30.42
  | years => ageValue * 365.25
  end.

Definition pediatric (ageValue : float) (ageUnit : AgeUnit) : bool :=
  (ageInDays ageValue ageUnit <=? 28) || is_months ageUnit
  || (is_years ageUnit && (ageValue <? 18)).

Definition calculateClearance (weight ageValue : float) (ageUnit : AgeUnit)
    (creatinine : float) : outcome float :=
  if (weight <=? 0) || (creatinine <=? 0) then Throw (Error clearance_message)
  else
    let crCl :=
      if pediatric ageValue ageUnit then
        let k :=
          if ageInDays ageValue ageUnit <=? 7 then 0.33
          else if ageInDays ageValue ageUnit <=? 28 then 0.45
          else if is_months ageUnit then 0.55
          else 0.413 in
        let height :=
          50 + ageValue * (match ageUnit with years => 12 | months => 1 | days => 0.1 end) in
        (k * height) / creatinine
      else
        let ageYears :=
          match ageUnit with
          | years => ageValue
          | months => ageValue / 12
          | days => ageValue / 365.25
          end in
        ((140 - ageYears) * weight) / (72 * creatinine) in
    Return (JS.Math_max 0 crCl).

(** ** [simulatePK] *)

(** The local variables the [switch] assigns; [t1_2] stays [undefined]
    ([None]) in the case that does not assign it. *)
Record locals : Type := {
  Vd : float;
  Ke : float;
  t1_2 : option float;
  infusionTime : float;
  Cmax : float;
  Cmin : float;
  auc : float
}.

(** The locals when the [return] statement is reached. *)
Record frame : Type := {
  vars : locals;
  timePoints : list float;
  concentrations : list float;
  status : string;
  suggestion : string
}.

Module PKResult.
Record t : Type := {
  timePoints : list float;
  concentrations : list float;
  Cmax : string;
  Cmin : string;
  auc : string;
  t1_2 : string;
  status : string;
  suggestion : string
}.
End PKResult.

Definition simulate_message : string := "Dose e intervalo devem ser maiores que 0.".

(** [Array.from({ length: len }, (_, i) => f i)]: the length goes through
    [ToLength], and an array longer than 2^32 - 1 cannot be created. *)
Definition Array_from_length (len : float) (f : float -> float) : outcome (list float) :=
  let n := JS.ToLength len in
  if (JS.max_array_length <? n)%Z then Throw RangeError
  else Return (map (fun i => f (JS.of_Z (Z.of_nat i))) (seq 0 (Z.to_nat n))).

(** [level && levelType]: [null] and the empty string are falsy. *)
Definition supplied (level : option float) (levelType : string) : bool :=
  match level with
  | Some l => JS.truthy l && negb (String.eqb levelType "")
  | None => false
  end.

(** [randomTime >= 0], where [null] converts to 0. *)
Definition non_negative (randomTime : option float) : bool :=
  match randomTime with
  | Some r => 0 <=? r
  | None => true
  end.

Section Simulation.

Variable Math_exp : float -> float.
Variable Number_toString_host : float -> string.

Local Abbreviation str := (JS.Number_toString Number_toString_host).
Local Abbreviation toFixed2 := (JS.toFixed2 Number_toString_host).

Definition normalize (crCl weight : float) : float := (crCl / 1000) * 60 / weight.

(** The [switch] over the antibiotic, on the normalized clearance. *)
Definition pk_switch (a : antibiotic) (dose interval weight crCl : float) : locals :=
  match a with
  | vancomycin_intermittent =>
      let Vd := 0.7 in
      let Ke := crCl * 0.00083 + 0.0044 in
      let t1_2 := 0.693 / Ke in
      let infusionTime := 1 in
      let Cmax := (dose / weight) / (Vd * (1 - Math_exp (- Ke * infusionTime))) in
      let Cmin := Cmax * Math_exp (- Ke * (interval - infusionTime)) in
      let auc := (dose / weight / interval) / (Ke * Vd) * 24 in
      {| Vd := Vd; Ke := Ke; t1_2 := Some t1_2; infusionTime := infusionTime;
         Cmax := Cmax; Cmin := Cmin; auc := auc |}
  | vancomycin_continuous =>
      let Vd := 0.7 in
      let Ke := crCl * 0.00083 + 0.0044 in
      let infusionTime := 24 in
      let auc := (dose / weight / 24) / (Ke * Vd) * 24 in
      let Cmax := auc / 24 in
      let Cmin := Cmax in
      {| Vd := Vd; Ke := Ke; t1_2 := None; infusionTime := infusionTime;
         Cmax := Cmax; Cmin := Cmin; auc := auc |}
  | gentamicin | tobramycin =>
      let Vd := 0.25 in
      let Ke := crCl * 0.0029 + 0.01 in
      let t1_2 := 0.693 / Ke in
      let infusionTime := 0.5 in
      let Cmax := (dose / weight) / (Vd * (1 - Math_exp (- Ke * infusionTime))) in
      let Cmin := Cmax * Math_exp (- Ke * (interval - infusionTime)) in
      let auc := (dose / weight / interval) / (Ke * Vd) * 24 in
      {| Vd := Vd; Ke := Ke; t1_2 := Some t1_2; infusionTime := infusionTime;
         Cmax := Cmax; Cmin := Cmin; auc := auc |}
  | amikacin =>
      let Vd := 0.25 in
      let Ke := crCl * 0.0029 + 0.01 in
      let t1_2 := 0.693 / Ke in
      let infusionTime := 0.5 in
      let Cmax := (dose / weight) / (Vd * (1 - Math_exp (- Ke * infusionTime))) in
      let Cmin := Cmax * Math_exp (- Ke * (interval - infusionTime)) in
      let auc := (dose / weight / interval) / (Ke * Vd) * 24 in
      {| Vd := Vd; Ke := Ke; t1_2 := Some t1_2; infusionTime := infusionTime;
         Cmax := Cmax; Cmin := Cmin; auc := auc |}
  end.

(** The sample of the curve at time [t]. *)
Definition concentration (v : locals) (dose weight t : float) : float :=
  if t <=? infusionTime v
  then (dose / weight) / (Vd v * (1 - Math_exp (- Ke v * t)))
  else Cmax v * Math_exp (- Ke v * (t - infusionTime v)).

(** The dose evaluation: status and suggestion. *)
Definition evaluate (a : antibiotic) (v : locals) (dose interval weight : float)
  : outcome (string * string) :=
  match a with
  | vancomycin_continuous =>
      if auc v <? 400 then
        Return ("Insuficiente",
                "Aumentar dose diária para " ++ str (JS.Math_round (dose * (400 / auc v)))
                ++ " mg/dia")%string
      else if 600 <? auc v then
        Return ("Excessiva",
                "Reduzir dose diária para " ++ str (JS.Math_round (dose * (600 / auc v)))
                ++ " mg/dia")%string
      else if (Cmax v <? 20) || (25 <? Cmax v) then
        Return ("Fora da faixa estável",
                "Ajustar dose para " ++ str (JS.Math_round (20 * Vd v * Ke v * weight * 24))
                ++ " mg/dia para atingir 20–25 µg/mL")%string
      else Return ("Adequada", "")%string
  | _ =>
      let targetPeak := peak (therapeuticRanges a) in
      let targetTrough := trough (therapeuticRanges a) in
      match a with
      | vancomycin_intermittent =>
          if (auc v <? 400) || (Cmin v <? 10) then
            Return ("Insuficiente",
                    "Aumentar dose para " ++ str (JS.Math_round (dose * (400 / auc v)))
                    ++ " mg ou reduzir intervalo para " ++ str (JS.Math_round (interval * 0.8))
                    ++ " h")%string
          else if (600 <? auc v) || (20 <? Cmin v) then
            Return ("Excessiva",
                    "Reduzir dose para " ++ str (JS.Math_round (dose * (600 / auc v)))
                    ++ " mg ou aumentar intervalo para " ++ str (JS.Math_round (interval * 1.2))
                    ++ " h")%string
          else Return ("Adequada", "")%string
      | _ =>
          match targetPeak, targetTrough with
          | Some targetPeak, Some targetTrough =>
              if (Cmax v <? fst targetPeak) || (Cmin v <? fst targetTrough) then
                Return ("Insuficiente",
                        "Aumentar dose para "
                        ++ str (JS.Math_round (dose * (snd targetPeak / Cmax v)))
                        ++ " mg ou reduzir intervalo para "
                        ++ str (JS.Math_round (interval * 0.8)) ++ " h")%string
              else if (snd targetPeak <? Cmax v) || (snd targetTrough <? Cmin v) then
                Return ("Excessiva",
                        "Reduzir dose para "
                        ++ str (JS.Math_round (dose * (fst targetPeak / Cmax v)))
                        ++ " mg ou aumentar intervalo para "
                        ++ str (JS.Math_round (interval * 1.2)) ++ " h")%string
              else Return ("Adequada", "")%string
          | _, _ => Throw TypeError
          end
      end
  end.

(** The time of the measured level, [null] ([None]) when there is none. *)
Definition measuredTime (v : locals) (interval : float) (level : option float)
    (levelType : string) (randomTime : option float) : option float :=
  if supplied level levelType then
    if String.eqb levelType "peak" then Some (infusionTime v)
    else if String.eqb levelType "trough" then Some (interval - 0.1)
    else if String.eqb levelType "random" && non_negative randomTime then randomTime
    else None
  else None.

(** [xs.push(x)] when a measured time was set. *)
Definition push_measured {A : Type} (xs : list A) (when : option float) (x : option A) : list A :=
  match when, x with
  | Some _, Some x => xs ++ [x]
  | _, _ => xs
  end.

(** The body of [simulatePK] down to the [return] statement. *)
Definition simulatePK_frame (a : antibiotic) (dose interval weight crCl : float)
    (level : option float) (levelType : string) (randomTime : option float)
  : outcome frame :=
  if (dose <=? 0) || (interval <=? 0) then Throw (Error simulate_message)
  else
    let crCl := normalize crCl weight in
    let v := pk_switch a dose interval weight crCl in
    timePoints <- Array_from_length (JS.Math_ceil (interval * 2)) (fun i => i / 2) ;;
    let concentrations := map (concentration v dose weight) timePoints in
    ev <- evaluate a v dose interval weight ;;
    let mt := measuredTime v interval level levelType randomTime in
    Return {| vars := v;
              timePoints := push_measured timePoints mt mt;
              concentrations := push_measured concentrations mt level;
              status := fst ev;
              suggestion := snd ev |}.

(** The [return] statement: [toFixed] on an [undefined] local throws. *)
Definition PK_return (f : frame) : outcome PKResult.t :=
  let v := vars f in
  match t1_2 v with
  | Some half_life =>
      Return {| PKResult.timePoints := timePoints f;
                PKResult.concentrations := concentrations f;
                PKResult.Cmax := toFixed2 (Cmax v);
                PKResult.Cmin := toFixed2 (Cmin v);
                PKResult.auc := toFixed2 (auc v);
                PKResult.t1_2 := toFixed2 half_life;
                PKResult.status := status f;
                PKResult.suggestion := suggestion f |}
  | None => Throw TypeError
  end.

Definition simulatePK (a : antibiotic) (dose interval weight crCl : float)
    (level : option float) (levelType : string) (randomTime : option float)
  : outcome PKResult.t :=
  f <- simulatePK_frame a dose interval weight crCl level levelType randomTime ;;
  PK_return f.

(** The two calls of the submit handler: the clearance, then the simulation
    on it. *)
Definition assess (weight ageValue : float) (ageUnit : AgeUnit) (creatinine : float)
    (a : antibiotic) (dose interval : float)
    (level : option float) (levelType : string) (randomTime : option float)
  : outcome PKResult.t :=
  crCl <- calculateClearance weight ageValue ageUnit creatinine ;;
  simulatePK a dose interval weight crCl level levelType randomTime.

End Simulation.

(** The sample array can be created: its length is at most 2^32 - 1. *)
Definition array_fits (interval : float) : bool :=
  (JS.ToLength (JS.Math_ceil (interval * 2)) <=? JS.max_array_length)%Z.

(** The time of the sample at index [i], and the curve's times before the
    measured level is appended. *)
Definition sample (i : nat) : float := JS.of_Z (Z.of_nat i) / 2.

Definition samples (interval : float) : list float :=
  map sample (seq 0 (Z.to_nat (JS.ToLength (JS.Math_ceil (interval * 2))))).

(** ** The specification's reading of the engine

    Definitions written from the specification's words, to be compared with
    the ones above. *)

Module Spec.

Section Engine.

Variable Math_exp : float -> float.

Definition crCl (clearance weight : float) : float := (clearance / 1000) * 60 / weight.

Definition Vd (a : antibiotic) : float :=
  match a with
  | vancomycin_intermittent | vancomycin_continuous => 0.7
  | gentamicin | tobramycin | amikacin => 0.25
  end.

Definition infusion (a : antibiotic) : float :=
  match a with
  | vancomycin_intermittent => 1
  | vancomycin_continuous => 24
  | gentamicin | tobramycin | amikacin => 0.5
  end.

Definition Ke (a : antibiotic) (crCl : float) : float :=
  match a with
  | vancomycin_intermittent | vancomycin_continuous => crCl * 0.00083 + 0.0044
  | gentamicin | tobramycin | amikacin => crCl * 0.0029 + 0.01
  end.

Definition Cmax (a : antibiotic) (dose weight crCl : float) : float :=
  (dose / weight) / (Vd a * (1 - Math_exp (- Ke a crCl * infusion a))).

Definition Cmin (a : antibiotic) (dose interval weight crCl : float) : float :=
  Cmax a dose weight crCl * Math_exp (- Ke a crCl * (interval - infusion a)).

Definition AUC (a : antibiotic) (dose interval weight crCl : float) : float :=
  (dose / weight / interval) / (Ke a crCl * Vd a) * 24.

Definition AUC_continuous (dose weight crCl : float) : float :=
  (dose / weight / 24) / (Ke vancomycin_continuous crCl * Vd vancomycin_continuous) * 24.

End Engine.

(** The status of a dosing, and the adjustment suggested with it. *)
Inductive verdict : Type := Insuficiente | Excessiva | Adequada | Fora_da_faixa_estavel.

Inductive advice : Type :=
| keep
| raise_dose_or_shorten (new_dose new_interval : float)
| lower_dose_or_lengthen (new_dose new_interval : float)
| raise_daily_dose (new_dose : float)
| lower_daily_dose (new_dose : float)
| steady_daily_dose (new_dose : float).

Definition round := JS.Math_round.

(** Vancomycin, intermittent. *)
Definition evaluate_intermittent (auc Cmin dose interval : float) : verdict * advice :=
  if (auc <? 400) || (Cmin <? 10) then
    (Insuficiente, raise_dose_or_shorten (round (dose * (400 / auc))) (round (interval * 0.8)))
  else if (600 <? auc) || (20 <? Cmin) then
    (Excessiva, lower_dose_or_lengthen (round (dose * (600 / auc))) (round (interval * 1.2)))
  else (Adequada, keep).

(** The static ranges of the aminoglycosides: (peakLow, peakHigh) and
    (troughLow, troughHigh). *)
Definition peak_range (a : antibiotic) : float * float :=
  match a with amikacin => (20, 30) | _ => (5, 10) end.

Definition trough_range (a : antibiotic) : float * float :=
  match a with amikacin => (0, 5) | _ => (0, 2) end.

Definition evaluate_aminoglycoside (a : antibiotic) (Cmax Cmin dose interval : float)
  : verdict * advice :=
  let '(peakLow, peakHigh) := peak_range a in
  let '(troughLow, troughHigh) := trough_range a in
  if (Cmax <? peakLow) || (Cmin <? troughLow) then
    (Insuficiente,
     raise_dose_or_shorten (round (dose * (peakHigh / Cmax))) (round (interval * 0.8)))
  else if (peakHigh <? Cmax) || (troughHigh <? Cmin) then
    (Excessiva,
     lower_dose_or_lengthen (round (dose * (peakLow / Cmax))) (round (interval * 1.2)))
  else (Adequada, keep).

(** Vancomycin, continuous. *)
Definition evaluate_continuous (auc Cmax Vd Ke dose weight : float) : verdict * advice :=
  if auc <? 400 then (Insuficiente, raise_daily_dose (round (dose * (400 / auc))))
  else if 600 <? auc then (Excessiva, lower_daily_dose (round (dose * (600 / auc))))
  else if (Cmax <? 20) || (25 <? Cmax) then
    (Fora_da_faixa_estavel, steady_daily_dose (round (20 * Vd * Ke * weight * 24)))
  else (Adequada, keep).

(** The clearance estimate before the clamp. *)
Definition clearance (weight ageValue : float) (ageUnit : AgeUnit) (creatinine : float) : float :=
  let ageInDays := ageInDays ageValue ageUnit in
  if (ageInDays <=? 28) || is_months ageUnit || (is_years ageUnit && (ageValue <? 18)) then
    let k :=
      if ageInDays <=? 7 then 0.33
      else if ageInDays <=? 28 then 0.45
      else if is_months ageUnit then 0.55
      else 0.413 in
    let height :=
      50 + ageValue * (match ageUnit with years => 12 | months => 1 | days => 0.1 end) in
    k * height / creatinine
  else
    let ageYears :=
      match ageUnit with
      | years => ageValue
      | months => ageValue / 12
      | days => ageValue / 365.25
      end in
    (140 - ageYears) * weight / (72 * creatinine).

End Spec.

(** The words of the script for a verdict and for an advice. *)
Definition label (s : Spec.verdict) : string :=
  match s with
  | Spec.Insuficiente => "Insuficiente"
  | Spec.Excessiva => "Excessiva"
  | Spec.Adequada => "Adequada"
  | Spec.Fora_da_faixa_estavel => "Fora da faixa estável"
  end.

Definition wording (str : float -> string) (s : Spec.advice) : string :=
  match s with
  | Spec.keep => ""
  | Spec.raise_dose_or_shorten d i =>
      "Aumentar dose para " ++ str d ++ " mg ou reduzir intervalo para " ++ str i ++ " h"
  | Spec.lower_dose_or_lengthen d i =>
      "Reduzir dose para " ++ str d ++ " mg ou aumentar intervalo para " ++ str i ++ " h"
  | Spec.raise_daily_dose d => "Aumentar dose diária para " ++ str d ++ " mg/dia"
  | Spec.lower_daily_dose d => "Reduzir dose diária para " ++ str d ++ " mg/dia"
  | Spec.steady_daily_dose d =>
      "Ajustar dose para " ++ str d ++ " mg/dia para atingir 20–25 µg/mL"
  end%string.

(** ** Vocabulary of the statements *)

(** What holds of the value of a call that got past the creation of the
    sample array: on valid input the only other completion is the
    [RangeError] of an array of more than 2^32 - 1 samples. *)
Definition reaches {A : Type} (c : outcome A) (interval : float) (P : A -> Prop) : Prop :=
  match c with
  | Return x => P x
  | Throw e => e = RangeError /\ array_fits interval = false
  end.

Definition continuous (a : antibiotic) : bool :=
  match a with vancomycin_continuous => true | _ => false end.

(** The time of the overlay point in the specification's words: none when a
    random level comes without a time or with a negative one. *)
Definition overlay_time (a : antibiotic) (interval : float) (levelType : string)
    (randomTime : option float) : option float :=
  if String.eqb levelType "peak" then Some (Spec.infusion a)
  else if String.eqb levelType "trough" then Some (interval - 0.1)
  else if String.eqb levelType "random" then
    match randomTime with
    | Some r => if 0 <=? r then Some r else None
    | None => None
    end
  else None.

Definition point {A : Type} (when : option float) (x : A) : list A :=
  match when with
  | Some _ => [x]
  | None => []
  end.

(** A list of times in the order [lt]. *)
Fixpoint ordered (lt : float -> float -> bool) (ts : list float) : bool :=
  match ts with
  | t :: (u :: _) as rest => lt t u && ordered lt rest
  | _ => true
  end.

(** The ln 2 of the host, [Math.LN2]. *)
Definition Math_LN2 : float := 0.6931471805599453.

(** The decision table of the specification for each antibiotic. *)
Definition table (a : antibiotic) (v : locals) (dose interval weight : float)
  : Spec.verdict * Spec.advice :=
  match a with
  | vancomycin_continuous =>
      Spec.evaluate_continuous (auc v) (Cmax v) (Vd v) (Ke v) dose weight
  | vancomycin_intermittent => Spec.evaluate_intermittent (auc v) (Cmin v) dose interval
  | gentamicin | amikacin | tobramycin =>
      Spec.evaluate_aminoglycoside a (Cmax v) (Cmin v) dose interval
  end.

(** The mantissa and the exponent of the float of a positive integer below 2^53. *)
Definition mantissa (p : positive) : positive :=
  fst (shl_align p 0 (Zpos (Pos.size p) - 53)).

Definition exponent (p : positive) : Z := Zpos (Pos.size p) - 53.

(** ** A host to run the model on

    An exponential good to thirteen digits: the Taylor polynomial of degree
    20 at [x / 2^10], squared ten times.  The statements below hold for every
    [Math.exp]; this one serves to evaluate the model on concrete inputs. *)

Fixpoint taylor (n : nat) (x term k sum : float) : float :=
  match n with
  | O => sum
  | S n => let term := term * x / k in taylor n x term (k + 1) (sum + term)
  end.

Fixpoint squarings (n : nat) (y : float) : float :=
  match n with
  | O => y
  | S n => squarings n (y * y)
  end.

Definition exp_ref (x : float) : float :=
  if is_nan x then nan
  else if x =? neg_infinity then 0
  else if x =? infinity then infinity
  else squarings 10 (taylor 20 (x / 1024) 1 1 1).

(** The inputs evaluated below have all their numbers rendered by
    [JS.Number_toString] itself; the host's rendering is not reached. *)
Definition digits_ref (x : float) : string := "".

(** ** The chart

    [renderChart] hands the library a configuration; the model keeps its
    data: the points of the curve, the marker of the measured level and the
    reference lines.  Labels of the datasets, colours of the points and the
    titles of the axes are constants of the script and are left out. *)

(** An x coordinate: a number, [null] or [undefined]. *)
Inductive coordinate : Type :=
| at_time (t : float)
| at_null
| at_undefined.

Module Chart.

Record point : Type := { x : coordinate; y : float }.

Record line : Type := {
  content : string;
  yMin : float;
  yMax : float;
  borderColor : string
}.

Record t : Type := {
  data : list point;
  measured : option point;
  annotations : list line
}.

Definition horizontal (content : string) (level : float) (borderColor : string) : line :=
  {| content := content; yMin := level; yMax := level; borderColor := borderColor |}.

End Chart.

(** What happens to charts: the library's [destroy], and [new Chart]. *)
Inductive chart_event : Type :=
| destroyed (c : Chart.t)
| created (c : Chart.t).

(** [xs[i]]. *)
Definition at_index (xs : list float) (i : nat) : coordinate :=
  match nth_error xs i with
  | Some t => at_time t
  | None => at_undefined
  end.

(** [xs.map((x, i) => f x i)], from index [i] on. *)
Fixpoint map_index {A B : Type} (f : A -> nat -> B) (i : nat) (xs : list A) : list B :=
  match xs with
  | [] => []
  | x :: rest => f x i :: map_index f (S i) rest
  end.

(** The annotations: the peak and trough bounds, or the steady-state bounds
    of the continuous infusion. *)
Definition reference_lines (a : antibiotic) : outcome (list Chart.line) :=
  let ranges := therapeuticRanges a in
  if negb (continuous a) then
    match peak ranges, trough ranges with
    | Some peak, Some trough =>
        Return [Chart.horizontal "Pico Mín." (fst peak) "#2ecc71";
                Chart.horizontal "Pico Máx." (snd peak) "#2ecc71";
                Chart.horizontal "Vale Mín." (fst trough) "#e67e22";
                Chart.horizontal "Vale Máx." (snd trough) "#e67e22"]
    | _, _ => Throw TypeError
    end
  else
    match steady ranges with
    | Some steady =>
        Return [Chart.horizontal "Estável Mín." (fst steady) "#2ecc71";
                Chart.horizontal "Estável Máx." (snd steady) "#2ecc71"]
    | None => Throw TypeError
    end.

(** [level && (levelType !== 'random' || (levelType === 'random' && randomTime >= 0))] *)
Definition marked (level : option float) (levelType : string) (randomTime : option float) : bool :=
  match level with
  | Some l =>
      JS.truthy l
      && (negb (String.eqb levelType "random")
          || (String.eqb levelType "random" && non_negative randomTime))
  | None => false
  end.

Definition marker_time (timePoints : list float) (levelType : string)
    (randomTime : option float) (infusionTime : float) : coordinate :=
  if String.eqb levelType "peak" then at_time infusionTime
  else if String.eqb levelType "trough" then at_index timePoints (List.length timePoints - 1)
  else match randomTime with
       | Some r => at_time r
       | None => at_null
       end.

(** [renderChart], on the chart the script holds: the events, the chart it
    holds afterwards, and the completion. *)
Definition renderChart (chart : option Chart.t) (timePoints concentrations : list float)
    (a : antibiotic) (level : option float) (levelType : string) (randomTime : option float)
    (infusionTime : float) : list chart_event * option Chart.t * outcome unit :=
  let destroy := match chart with Some c => [destroyed c] | None => [] end in
  let data :=
    map_index (fun c i => {| Chart.x := at_index timePoints i; Chart.y := c |}) 0 concentrations in
  let measured :=
    match level with
    | Some l =>
        if marked level levelType randomTime
        then Some {| Chart.x := marker_time timePoints levelType randomTime infusionTime;
                     Chart.y := l |}
        else None
    | None => None
    end in
  match reference_lines a with
  | Return lines =>
      let c := {| Chart.data := data; Chart.measured := measured; Chart.annotations := lines |} in
      (destroy ++ [created c], Some c, Return tt)
  | Throw e => (destroy, chart, Throw e)
  end.

(** The arguments of a call, and a sequence of calls. *)
Record rendering : Type := {
  r_timePoints : list float;
  r_concentrations : list float;
  r_antibiotic : antibiotic;
  r_level : option float;
  r_levelType : string;
  r_randomTime : option float;
  r_infusionTime : float
}.

Fixpoint renderings (chart : option Chart.t) (calls : list rendering)
  : list chart_event * option Chart.t :=
  match calls with
  | [] => ([], chart)
  | r :: rest =>
      let '(events, chart', _) :=
        renderChart chart (r_timePoints r) (r_concentrations r) (r_antibiotic r)
                    (r_level r) (r_levelType r) (r_randomTime r) (r_infusionTime r) in
      let '(later, final) := renderings chart' rest in
      (events ++ later, final)
  end.

(** Charts created and not destroyed. *)
Fixpoint alive (events : list chart_event) : Z :=
  match events with
  | [] => 0
  | created _ :: rest => 1 + alive rest
  | destroyed _ :: rest => alive rest - 1
  end%Z.

(** The infusion time the submit handler passes to [renderChart]. *)
Definition handler_infusionTime (a : antibiotic) : float :=
  match a with
  | vancomycin_continuous => 24
  | vancomycin_intermittent => 1
  | _ => 0.5
  end.

(** [x || null] on a number. *)
Definition or_null (x : float) : option float := if JS.truthy x then Some x else None.

Definition aminoglycoside (a : antibiotic) : bool :=
  match a with
  | gentamicin | amikacin | tobramycin => true
  | _ => false
  end.

(** The chart the script holds, counted. *)
Definition held (chart : option Chart.t) : Z :=
  match chart with Some _ => 1 | None => 0 end.

(** The point of the curve for a time and a concentration. *)
Definition curve_point (tc : float * float) : Chart.point :=
  {| Chart.x := at_time (fst tc); Chart.y := snd tc |}.

(** ** The report

    [generatePDF] calls the document of the PDF library; the model keeps the
    calls in order.  The image of the chart comes from the canvas and is a
    parameter. *)

Module Patient.
Record t : Type := {
  name : string;
  id : string;
  weight : float;
  ageValue : float;
  ageUnit : AgeUnit;
  creatinine : float;
  antibiotic : antibiotic;
  dose : float;
  interval : float;
  level : option float;
  levelType : string;
  randomTime : option float
}.
End Patient.

Module PDF.
Inductive op : Type :=
| setFont (fontName fontStyle : string)
| setFontSize (size : Z)
| text (s : string) (x y : Z)
| addImage (imageData format : string) (x y width height : Z)
| save (filename : string).
End PDF.

(** The values of the selects. *)
Definition antibiotic_value (a : antibiotic) : string :=
  match a with
  | vancomycin_intermittent => "vancomycin_intermittent"
  | vancomycin_continuous => "vancomycin_continuous"
  | gentamicin => "gentamicin"
  | amikacin => "amikacin"
  | tobramycin => "tobramycin"
  end.

Definition AgeUnit_value (u : AgeUnit) : string :=
  match u with
  | days => "days"
  | months => "months"
  | years => "years"
  end.

(** [s.replace(c, d)] for one-character strings: the first [c] only. *)
Fixpoint replace_first (c d : ascii) (s : string) : string :=
  match s with
  | EmptyString => EmptyString
  | String h rest =>
      if Ascii.eqb h c then String d rest else String h (replace_first c d rest)
  end.

(** [s || 'N/A'] on a string: the empty string is falsy. *)
Definition string_or_NA (s : string) : string :=
  match s with
  | EmptyString => "N/A"
  | _ => s
  end.

Section Report.

Variable Number_toString_host : float -> string.

(** [x || 'N/A'] on a number, inside a template literal. *)
Definition number_or_NA (x : float) : string :=
  if JS.truthy x then JS.Number_toString Number_toString_host x else "N/A"%string.

(** The line of the parameters, in the report and on the page. *)
Definition parameters_line (data : PKResult.t) : string :=
  ("Parâmetros: Cmax=" ++ PKResult.Cmax data ++ " µg/mL, Cmin=" ++ PKResult.Cmin data
   ++ " µg/mL, AUC=" ++ PKResult.auc data ++ " mg·h/L, T1/2=" ++ PKResult.t1_2 data ++ " h")%string.

Definition generatePDF (data : PKResult.t) (patient : Patient.t) (chartImg : string)
  : list PDF.op :=
  [ PDF.setFont "helvetica" "bold";
    PDF.setFontSize 16;
    PDF.text "PedMedMonitor - Relatório" 10 20;
    PDF.setFont "helvetica" "normal";
    PDF.setFontSize 12;
    PDF.text ("Nome: " ++ string_or_NA (Patient.name patient)) 10 30;
    PDF.text ("ID: " ++ string_or_NA (Patient.id patient)) 10 40;
    PDF.text ("Peso: " ++ number_or_NA (Patient.weight patient) ++ " kg") 10 50;
    PDF.text ("Idade: " ++ number_or_NA (Patient.ageValue patient) ++ " "
              ++ AgeUnit_value (Patient.ageUnit patient)) 10 60;
    PDF.text ("Creatinina: " ++ number_or_NA (Patient.creatinine patient) ++ " mg/dL") 10 70;
    PDF.text ("Antibiótico: "
              ++ replace_first "_" " " (antibiotic_value (Patient.antibiotic patient))) 10 80;
    PDF.text ("Dose: " ++ number_or_NA (Patient.dose patient) ++ " mg ("
              ++ JS.toFixed2 Number_toString_host (Patient.dose patient / Patient.weight patient)
              ++ " mg/kg), Intervalo: " ++ number_or_NA (Patient.interval patient) ++ " h") 10 90;
    PDF.text (parameters_line data) 10 100;
    PDF.text ("Status: " ++ string_or_NA (PKResult.status data)) 10 110;
    PDF.text ("Sugestão: " ++ string_or_NA (PKResult.suggestion data)) 10 120;
    PDF.text "Nota: Valide com diretrizes locais antes de ajustar doses." 10 130;
    PDF.addImage chartImg "PNG" 10 140 190 100;
    PDF.save "PedMedMonitor_Report.pdf" ]%string%Z.

(** The text the report writes at a place of the page, if any. *)
Fixpoint text_at (x y : Z) (ops : list PDF.op) : option string :=
  match ops with
  | [] => None
  | PDF.text s x' y' :: rest =>
      if ((x' =? x) && (y' =? y))%Z then Some s else text_at x y rest
  | _ :: rest => text_at x y rest
  end.

End Report.

(** ** The submit handler

    After [preventDefault] on the event, the handler reads the fields of the
    form, calls [calculateClearance] and [simulatePK], writes three lines on
    the page, reveals the results, draws the chart and sets the handler of
    the report button; whatever is thrown on the way is caught and shown in
    an alert.  The model follows the page; the event itself is left out. *)

Module Form.
Record t : Type := {
  patientName : string;
  patientId : string;
  weight : string;
  ageValue : string;
  ageUnit : AgeUnit;
  creatinine : string;
  antibiotic : antibiotic;
  dose : string;
  interval : string;
  level : string;
  levelType : string;
  randomTime : string
}.
End Form.

(** What the [catch] clause can receive: an exception of the engine, or the
    [ReferenceError] of an identifier that is bound nowhere. *)
Inductive thrown : Type :=
| of_engine (e : exn)
| ReferenceError (identifier : string).

Inductive completion (A : Type) : Type :=
| normal (a : A)
| abrupt (t : thrown).
Arguments normal {A} a.
Arguments abrupt {A} t.

Definition of_outcome {A : Type} (c : outcome A) : completion A :=
  match c with
  | Return a => normal a
  | Throw e => abrupt (of_engine e)
  end.

(** The page as the handler changes it. *)
Record page : Type := {
  doseStatus : string;
  doseSuggestion : string;
  pkParameters : string;
  results_hidden : bool;
  chart : option Chart.t;
  chart_events : list chart_event;
  generatePdf_onclick : option (PKResult.t * Patient.t);
  alerts : list string
}.

Definition alert (message : string) (p : page) : page :=
  {| doseStatus := doseStatus p;
     doseSuggestion := doseSuggestion p;
     pkParameters := pkParameters p;
     results_hidden := results_hidden p;
     chart := chart p;
     chart_events := chart_events p;
     generatePdf_onclick := generatePdf_onclick p;
     alerts := alerts p ++ [message] |}.

(** The names in scope where the patient literal is evaluated: the constants
    of the [try] block, none of them initialized yet, the parameter of the
    handler, and the top-level declarations of the script. *)
Definition block_bindings : list string :=
  ["patient"; "crCl"; "infusionTime"; "pkData"]%string.

Definition handler_parameters : list string := ["e"]%string.

Definition script_bindings : list string :=
  ["form"; "results"; "levelTypeSelect"; "randomTimeLabel"; "ctx"; "jsPDF"; "chart";
   "therapeuticRanges"; "calculateClearance"; "simulatePK"; "renderChart";
   "generatePDF"]%string.

Section Handler.

Variable Math_exp : float -> float.
Variable Number_toString_host : float -> string.
(** The host's [parseFloat], and the [message] of the errors it creates. *)
Variable parseFloat : string -> float.
Variable host_message : thrown -> string.
(** The names the global object of the page binds, and, for a global with a
    member [Float], what calling that member on a text completes with. *)
Variable global_object : string -> bool.
Variable host_Float : string -> completion float.

(** [error.message]: the text given to [new Error], the host's otherwise. *)
Definition message (t : thrown) : string :=
  match t with
  | of_engine (Error m) => m
  | _ => host_message t
  end.

(** The initializer of [ageValue] calls the member [Float] of an identifier:
    [parseFloat] with the letter U+0A28 appended.  The identifier is looked
    up in the block, in the handler, among the declarations of the script,
    then in the global object.  A constant of the block is not initialized
    yet and reading it throws a [ReferenceError]; the event and the values
    of the script have no member [Float], so calling it throws a
    [TypeError]; when nothing binds the identifier the reference throws
    before the field is read. *)
Definition callee : string := "parseFloatਨ".

Definition binds (names : list string) (name : string) : bool :=
  existsb (String.eqb name) names.

Definition ageValue_initializer (f : Form.t) : completion float :=
  if binds block_bindings callee then abrupt (ReferenceError callee)
  else if binds (handler_parameters ++ script_bindings) callee
       then abrupt (of_engine TypeError)
  else if global_object callee then host_Float (Form.ageValue f)
  else abrupt (ReferenceError callee).

(** The object literal, property by property. *)
Definition read_patient (f : Form.t) : completion Patient.t :=
  let name := Form.patientName f in
  let id := Form.patientId f in
  let weight := parseFloat (Form.weight f) in
  match ageValue_initializer f with
  | abrupt t => abrupt t
  | normal ageValue =>
      normal {| Patient.name := name;
                Patient.id := id;
                Patient.weight := weight;
                Patient.ageValue := ageValue;
                Patient.ageUnit := Form.ageUnit f;
                Patient.creatinine := parseFloat (Form.creatinine f);
                Patient.antibiotic := Form.antibiotic f;
                Patient.dose := parseFloat (Form.dose f);
                Patient.interval := parseFloat (Form.interval f);
                Patient.level := or_null (parseFloat (Form.level f));
                Patient.levelType := Form.levelType f;
                Patient.randomTime := or_null (parseFloat (Form.randomTime f)) |}
  end.

(** The statements of the [try] block after the literal, on the page. *)
Definition present (patient : Patient.t) (p : page) : page * completion unit :=
  match calculateClearance (Patient.weight patient) (Patient.ageValue patient)
                           (Patient.ageUnit patient) (Patient.creatinine patient) with
  | Throw e => (p, abrupt (of_engine e))
  | Return crCl =>
      let infusionTime := handler_infusionTime (Patient.antibiotic patient) in
      match simulatePK Math_exp Number_toString_host (Patient.antibiotic patient)
                       (Patient.dose patient) (Patient.interval patient)
                       (Patient.weight patient) crCl (Patient.level patient)
                       (Patient.levelType patient) (Patient.randomTime patient) with
      | Throw e => (p, abrupt (of_engine e))
      | Return pkData =>
          let '(events, chart', drawn) :=
            renderChart (chart p) (PKResult.timePoints pkData) (PKResult.concentrations pkData)
                        (Patient.antibiotic patient) (Patient.level patient)
                        (Patient.levelType patient) (Patient.randomTime patient) infusionTime in
          let shown onclick :=
            {| doseStatus := "Status: " ++ PKResult.status pkData;
               doseSuggestion := "Sugestão: " ++ PKResult.suggestion pkData;
               pkParameters := parameters_line pkData;
               results_hidden := false;
               chart := chart';
               chart_events := chart_events p ++ events;
               generatePdf_onclick := onclick;
               alerts := alerts p |} in
          match drawn with
          | Throw e => (shown (generatePdf_onclick p), abrupt (of_engine e))
          | Return _ => (shown (Some (pkData, patient)), normal tt)
          end
      end
  end.

(** The handler: the [try] block and its [catch] clause. *)
Definition submit (f : Form.t) (p : page) : page :=
  match read_patient f with
  | abrupt t => alert ("Erro: " ++ message t) p
  | normal patient =>
      match present patient p with
      | (p', abrupt t) => alert ("Erro: " ++ message t) p'
      | (p', normal _) => p'
      end
  end.

(** One submission after the other. *)
Definition submissions (forms : list Form.t) (p : page) : page :=
  fold_left (fun p f => submit f p) forms p.

End Handler.

(** ** Further vocabulary *)

(** A result that reports nothing to adjust on exposures that are not
    numbers. *)
Definition adequate (r : PKResult.t) : Prop :=
  PKResult.status r = "Adequada"%string /\ PKResult.suggestion r = EmptyString
  /\ PKResult.Cmax r = "NaN"%string /\ PKResult.Cmin r = "NaN"%string
  /\ PKResult.auc r = "NaN"%string.

(** The index of the sample taken at the end of the infusion. *)
Definition infusion_index (a : antibiotic) : nat :=
  match a with
  | vancomycin_intermittent => 2
  | vancomycin_continuous => 48
  | gentamicin | amikacin | tobramycin => 1
  end.

(** A patient to run the report on: 40 years old, creatinine 1.0 mg/dL,
    gentamicin 420 mg every 8 h, no measured level. *)
Definition adult (weight : float) : Patient.t :=
  {| Patient.name := "A. B.";
     Patient.id := "";
     Patient.weight := weight;
     Patient.ageValue := 40;
     Patient.ageUnit := years;
     Patient.creatinine := 1;
     Patient.antibiotic := gentamicin;
     Patient.dose := 420;
     Patient.interval := 8;
     Patient.level := None;
     Patient.levelType := "";
     Patient.randomTime := None |}.

(** A page to run the handler on: the global object binds the names the
    script uses and no other, nothing is shown yet, and two forms are
    submitted. *)
Definition page_globals (name : string) : bool :=
  existsb (String.eqb name)
          ["document"; "window"; "parseFloat"; "alert"; "Math"; "Array"; "Chart"]%string.

Definition blank_page : page :=
  {| doseStatus := "";
     doseSuggestion := "";
     pkParameters := "";
     results_hidden := true;
     chart := None;
     chart_events := [];
     generatePdf_onclick := None;
     alerts := [] |}.

Definition filled_form (weight : string) : Form.t :=
  {| Form.patientName := "A. B.";
     Form.patientId := "";
     Form.weight := weight;
     Form.ageValue := "40";
     Form.ageUnit := years;
     Form.creatinine := "1.0";
     Form.antibiotic := gentamicin;
     Form.dose := "420";
     Form.interval := "8";
     Form.level := "";
     Form.levelType := "";
     Form.randomTime := "" |}.

(** ** The host functions on examples *)

Example ceil_ex : map JS.Math_ceil [16; 15.2; 0.3; -0.3; -2.5; 4e9]
                  = [16; 16; 1; neg_zero; -2; 4e9].
Proof. reflexivity. Qed.

Example round_ex : map JS.Math_round [2.5; 2.4; -2.5; -2.6; 0.49; -0.5; 522.7]
                   = [3; 2; -2; -3; 0; neg_zero; 523].
Proof. reflexivity. Qed.

Example toFixed_ex :
  map (JS.toFixed2 (fun _ => EmptyString))
      [67.66476810414972; 1.005; 0.125; -0.001; 12; 0.999; 1234.5]
  = ["67.66"; "1.00"; "0.13"; "-0.00"; "12.00"; "1.00"; "1234.50"]%string.
Proof. reflexivity. Qed.

(** ** Order facts on floats, read off their specification *)

Ltac by_spec_float x :=
  rewrite ?ltb_spec, ?leb_spec, ?eqb_spec;
  change (Prim2SF 0) with (S754_zero false);
  destruct (Prim2SF x) as [[|]|[|]| |[|] ? ?]; cbv; congruence.

Lemma positive_passes (x : float) : (0 <? x) = true -> (x <=? 0) = false.
Proof. by_spec_float x. Qed.

Lemma positive_not_negative (x : float) : (0 <? x) = true -> (x <? 0) = false.
Proof. by_spec_float x. Qed.

Lemma Math_max_zero (x : float) :
  JS.Math_max 0 x = if is_nan x then nan else if 0 <? x then x else 0.
Proof.
  unfold JS.Math_max, JS.Math_max_from.
  change (is_nan 0) with false.
  change (JS.is_pos_zero 0 && JS.is_neg_zero neg_infinity) with false.
  change (neg_infinity <? 0) with true. cbv iota.
  change (JS.is_neg_zero 0) with false. rewrite andb_false_r. reflexivity.
Qed.

Lemma Math_max_zero_not_negative (x : float) : (JS.Math_max 0 x <? 0) = false.
Proof.
  rewrite Math_max_zero.
  destruct (is_nan x); [reflexivity|].
  destruct (0 <? x) eqn:Hx; [now apply positive_not_negative | reflexivity].
Qed.

(** ** Rounding

    [JS.nearest n k] is within a half of [n / 2^k], and a tie goes up: this
    is the rounding of [Math.round] and of [toFixed]. *)
Lemma nearest_half (n k : Z) :
  (0 <= k)%Z ->
  ((2 * JS.nearest n k - 1) * 2 ^ k <= 2 * n < (2 * JS.nearest n k + 1) * 2 ^ k)%Z.
Proof.
  intros Hk. unfold JS.nearest. rewrite !Z.shiftl_mul_pow2 by assumption.
  assert (0 < 2 ^ k)%Z as Hd by (apply Z.pow_pos_nonneg; lia).
  set (d := (2 ^ k)%Z) in *.
  pose proof (Z.div_mod (2 * n + 1 * d) (2 * d) ltac:(lia)) as Hdiv.
  pose proof (Z.mod_pos_bound (2 * n + 1 * d) (2 * d) ltac:(lia)) as Hmod.
  set (q := ((2 * n + 1 * d) / (2 * d))%Z) in *. nia.
Qed.

(** ** The branches of [calculateClearance] *)

(** The estimate is the specification's, clamped. *)
Lemma calculateClearance_valid (weight ageValue : float) (ageUnit : AgeUnit) (creatinine : float) :
  (0 <? weight) = true -> (0 <? creatinine) = true ->
  calculateClearance weight ageValue ageUnit creatinine
  = Return (JS.Math_max 0 (Spec.clearance weight ageValue ageUnit creatinine)).
Proof.
  intros Hw Hc. unfold calculateClearance.
  rewrite (positive_passes _ Hw), (positive_passes _ Hc). reflexivity.
Qed.

(** C5, amended. For positive weight and creatinine the result is the
    estimate of the specification (Schwartz when [ageInDays <= 28], or the
    unit is months, or the unit is years and [ageValue < 18], with k by age
    band; Cockcroft-Gault otherwise) clamped at 0, never negative.  18 years
    is adult, 28 days is pediatric with k = 0.45, 29 days given in days is
    adult; 29 days given in years is under 18 years, hence pediatric with
    k = 0.413. *)
Theorem clearance_branches (weight ageValue : float) (ageUnit : AgeUnit) (creatinine : float) :
  (0 <? weight) = true -> (0 <? creatinine) = true ->
  calculateClearance weight ageValue ageUnit creatinine
  = Return (JS.Math_max 0 (Spec.clearance weight ageValue ageUnit creatinine))
  /\ (JS.Math_max 0 (Spec.clearance weight ageValue ageUnit creatinine) <? 0) = false
  /\ calculateClearance weight 18 years creatinine
     = Return (JS.Math_max 0 ((140 - 18) * weight / (72 * creatinine)))
  /\ calculateClearance weight 28 days creatinine
     = Return (JS.Math_max 0 (0.45 * (50 + 28 * 0.1) / creatinine))
  /\ calculateClearance weight 29 days creatinine
     = Return (JS.Math_max 0 ((140 - 29 / 365.25) * weight / (72 * creatinine)))
  /\ ageInDays 0.07939767282683094 years = 29
  /\ calculateClearance weight 0.07939767282683094 years creatinine
     = Return (JS.Math_max 0 (0.413 * (50 + 0.07939767282683094 * 12) / creatinine)).
Proof.
  intros Hw Hc. rewrite !calculateClearance_valid by assumption.
  repeat split; try reflexivity. apply Math_max_zero_not_negative.
Qed.

(** ** The floats of the sample times

    The sample at index [i] is the float of [i] divided by 2.  Below 2^53
    both steps are exact, and the specification of the float operations
    gives mantissa and exponent of the result. *)

Lemma digits2_size (p : positive) : digits2_pos p = Pos.size p.
Proof. induction p; cbn; congruence. Qed.

Lemma iter_xO_Z (p k : positive) : Zpos (Pos.iter xO p k) = (Zpos p * 2 ^ Zpos k)%Z.
Proof.
  induction k using Pos.peano_ind.
  - cbn. lia.
  - rewrite Pos.iter_succ, Pos2Z.inj_xO, IHk, Pos2Z.inj_succ, Z.pow_succ_r by lia. lia.
Qed.

Lemma size_iter_xO (p k : positive) : Pos.size (Pos.iter xO p k) = (Pos.size p + k)%positive.
Proof.
  induction k using Pos.peano_ind.
  - cbn. lia.
  - rewrite Pos.iter_succ. cbn [Pos.size]. rewrite IHk. lia.
Qed.

Lemma size_bounds (p : positive) :
  (2 ^ (Zpos (Pos.size p) - 1) <= Zpos p < 2 ^ Zpos (Pos.size p))%Z.
Proof.
  pose proof (Pos.size_gt p) as Hgt. pose proof (Pos.size_le p) as Hle.
  apply Pos2Z.pos_lt_pos in Hgt. apply Pos2Z.pos_le_pos in Hle.
  rewrite Pos2Z.inj_pow in Hgt, Hle. rewrite (Pos2Z.inj_xO p) in Hle.
  split; [|exact Hgt].
  replace (Zpos (Pos.size p)) with (Z.succ (Zpos (Pos.size p) - 1)) in Hle by lia.
  rewrite Z.pow_succ_r in Hle by lia. lia.
Qed.

Lemma size_below (p : positive) (n : Z) :
  (0 <= n)%Z -> (Zpos p < 2 ^ n)%Z -> (Zpos (Pos.size p) <= n)%Z.
Proof.
  intros Hn Hp. destruct (size_bounds p) as [Hlo _].
  destruct (Z.le_gt_cases (Zpos (Pos.size p)) n) as [|Hgt]; [assumption|].
  assert (2 ^ n <= 2 ^ (Zpos (Pos.size p) - 1))%Z by (apply Z.pow_le_mono_r; lia).
  lia.
Qed.

Lemma shl_align_canonical (p : positive) :
  (Zpos p < 2 ^ 53)%Z ->
  shl_align p 0 (exponent p) = (mantissa p, exponent p).
Proof.
  intros Hp. pose proof (size_below p 53 ltac:(lia) Hp) as Hs.
  unfold mantissa, exponent, shl_align. rewrite Z.sub_0_r.
  destruct (Zpos (Pos.size p) - 53)%Z eqn:E; cbn [fst]; try reflexivity. lia.
Qed.

Lemma mantissa_Z (p : positive) :
  (Zpos p < 2 ^ 53)%Z -> Zpos (mantissa p) = (Zpos p * 2 ^ (53 - Zpos (Pos.size p)))%Z.
Proof.
  intros Hp. pose proof (size_below p 53 ltac:(lia) Hp) as Hs.
  unfold mantissa, shl_align. rewrite Z.sub_0_r.
  destruct (Zpos (Pos.size p) - 53)%Z as [|d|d] eqn:E; cbn [fst].
  - replace (53 - Zpos (Pos.size p))%Z with 0%Z by lia. lia.
  - lia.
  - rewrite iter_xO_Z. f_equal. f_equal. lia.
Qed.

Lemma mantissa_size (p : positive) :
  (Zpos p < 2 ^ 53)%Z -> Pos.size (mantissa p) = 53%positive.
Proof.
  intros Hp. pose proof (size_below p 53 ltac:(lia) Hp) as Hs.
  unfold mantissa, shl_align. rewrite Z.sub_0_r.
  destruct (Zpos (Pos.size p) - 53)%Z as [|d|d] eqn:E; cbn [fst].
  - lia.
  - lia.
  - rewrite size_iter_xO. lia.
Qed.

(** A mantissa of 53 bits with an exponent in range is kept by rounding. *)
Lemma round_exact (s : bool) (m : positive) (e : Z) :
  Pos.size m = 53%positive -> (-1074 <= e <= 971)%Z ->
  binary_round_aux prec emax s (Zpos m) e loc_Exact = S754_finite s m e.
Proof.
  intros Hm He.
  assert (shr_fexp prec emax (Zpos m) e loc_Exact
          = ({| shr_m := Zpos m; shr_r := false; shr_s := false |}, e)) as Hshr.
  { unfold shr_fexp, Zdigits2. rewrite digits2_size, Hm.
    replace (fexp prec emax (53 + e) - e)%Z with 0%Z
      by (unfold fexp, SpecFloat.emin, prec, emax; lia).
    reflexivity. }
  unfold binary_round_aux. rewrite Hshr. cbn [shr_m loc_of_shr_record round_nearest_even].
  rewrite Hshr. cbn [shr_m].
  replace (e <=? emax - prec)%Z with true; [reflexivity|].
  symmetry. apply Z.leb_le. unfold emax, prec. lia.
Qed.

Lemma of_Z_SF (p : positive) :
  (Zpos p < 2 ^ 53)%Z ->
  Prim2SF (JS.of_Z (Zpos p)) = S754_finite false (mantissa p) (exponent p).
Proof.
  intros Hp. pose proof (size_below p 53 ltac:(lia) Hp) as Hs.
  unfold JS.of_Z. rewrite of_uint63_spec, Uint63.of_Z_spec.
  rewrite Z.mod_small by (change Uint63.wB with (2 ^ 63)%Z; lia).
  unfold binary_normalize, binary_round. rewrite digits2_size.
  replace (fexp prec emax (Zpos (Pos.size p) + 0)) with (exponent p)
    by (unfold exponent, fexp, SpecFloat.emin, prec, emax; lia).
  rewrite (shl_align_canonical p Hp).
  apply round_exact; [now apply mantissa_size | unfold exponent; lia].
Qed.

Lemma div_eucl_exact (a b : Z) : (0 < b)%Z -> Z.div_eucl (a * b) b = (a, 0%Z).
Proof.
  intros Hb. pose proof (Z_div_mod (a * b) b ltac:(lia)) as H.
  destruct (Z.div_eucl (a * b) b) as [q r]. destruct H as [H Hr].
  assert (q = a) by nia. subst q. f_equal. lia.
Qed.

Lemma halve_SF (s : bool) (m : positive) (e : Z) :
  Pos.size m = 53%positive -> (-1072 <= e <= 971)%Z ->
  SF64div (S754_finite s m e) (Prim2SF 2) = S754_finite s m (e - 1).
Proof.
  intros Hm He. change (Prim2SF 2) with (S754_finite false 4503599627370496 (-51)).
  unfold SF64div, SFdiv, SFdiv_core_binary, Zdigits2.
  rewrite digits2_size, Hm. change (digits2_pos 4503599627370496) with 53%positive.
  replace (Z.min (fexp prec emax (53 + e - (53 + -51))) (e - -51))%Z with (e - 2)%Z
    by (unfold fexp, SpecFloat.emin, prec, emax; lia).
  replace (e - -51 - (e - 2))%Z with 53%Z by lia.
  rewrite Z.shiftl_mul_pow2 by lia.
  replace (Zpos m * 2 ^ 53)%Z with (Zpos m~0 * 4503599627370496)%Z by lia.
  rewrite div_eucl_exact by lia.
  change (new_location 4503599627370496 0) with loc_Exact.
  rewrite xorb_false_r.
  (* the quotient has 54 bits: one shift *)
  unfold binary_round_aux.
  assert (shr_fexp prec emax (Zpos m~0) (e - 2) loc_Exact
          = ({| shr_m := Zpos m; shr_r := false; shr_s := false |}, (e - 1)%Z)) as ->.
  { unfold shr_fexp, Zdigits2. cbn [digits2_pos]. rewrite digits2_size, Hm.
    replace (fexp prec emax (Zpos (Pos.succ 53) + (e - 2)) - (e - 2))%Z with 1%Z
      by (unfold fexp, SpecFloat.emin, prec, emax; lia).
    cbn. f_equal. lia. }
  cbn [shr_m loc_of_shr_record round_nearest_even].
  assert (shr_fexp prec emax (Zpos m) (e - 1) loc_Exact
          = ({| shr_m := Zpos m; shr_r := false; shr_s := false |}, (e - 1)%Z)) as ->.
  { unfold shr_fexp, Zdigits2. rewrite digits2_size, Hm.
    replace (fexp prec emax (53 + (e - 1)) - (e - 1))%Z with 0%Z
      by (unfold fexp, SpecFloat.emin, prec, emax; lia).
    reflexivity. }
  cbn [shr_m].
  replace (e - 1 <=? emax - prec)%Z with true; [reflexivity|].
  symmetry. apply Z.leb_le. unfold emax, prec. lia.
Qed.

(** The sample at index [p], as a specified float. *)
Lemma sample_SF (p : positive) :
  (Zpos p < 2 ^ 53)%Z ->
  Prim2SF (JS.of_Z (Zpos p) / 2) = S754_finite false (mantissa p) (exponent p - 1).
Proof.
  intros Hp. pose proof (size_below p 53 ltac:(lia) Hp) as Hs.
  rewrite FloatAxioms.div_spec, (of_Z_SF p Hp).
  apply halve_SF; [now apply mantissa_size | unfold exponent; lia].
Qed.

Lemma sample_lt (p q : positive) :
  (Zpos p < Zpos q)%Z -> (Zpos q < 2 ^ 53)%Z ->
  (JS.of_Z (Zpos p) / 2 <? JS.of_Z (Zpos q) / 2) = true.
Proof.
  intros Hpq Hq. assert (Zpos p < 2 ^ 53)%Z as Hp by lia.
  pose proof (size_below p 53 ltac:(lia) Hp) as Hsp.
  rewrite ltb_spec, (sample_SF p Hp), (sample_SF q Hq).
  unfold SFltb, SFcompare.
  assert (Zpos (Pos.size p) <= Zpos (Pos.size q))%Z as Hsize.
  { destruct (size_bounds q) as [_ Hhi]. apply size_below; lia. }
  destruct (Z.compare_spec (exponent p - 1) (exponent q - 1)) as [E|E|E].
  - change (PosDef.Pos.compare_cont Eq (mantissa p) (mantissa q))
      with (Pos.compare (mantissa p) (mantissa q)).
    assert (mantissa p < mantissa q)%positive as ->; [|reflexivity].
    change (Zpos (mantissa p) < Zpos (mantissa q))%Z. rewrite !mantissa_Z by assumption.
    unfold exponent in E. replace (Zpos (Pos.size q)) with (Zpos (Pos.size p)) by lia.
    apply Z.mul_lt_mono_pos_r; [apply Z.pow_pos_nonneg|]; lia.
  - reflexivity.
  - unfold exponent in E. lia.
Qed.

Lemma sample_ascending (i j : nat) :
  (i < j)%nat -> (Z.of_nat j < 2 ^ 53)%Z -> (sample i <? sample j) = true.
Proof.
  intros Hij Hj. unfold sample.
  destruct j as [|j]; [lia|].
  destruct i as [|i].
  - change (JS.of_Z (Z.of_nat 0) / 2) with 0. cbn [Z.of_nat] in *.
    rewrite ltb_spec, sample_SF by assumption. reflexivity.
  - cbn [Z.of_nat] in *. apply sample_lt; lia.
Qed.

Lemma ordered_cons (lt : float -> float -> bool) (t : float) (ts : list float) :
  ordered lt (t :: ts)
  = match ts with
    | [] => true
    | u :: _ => lt t u && ordered lt ts
    end.
Proof. destruct ts; reflexivity. Qed.

Lemma ordered_snoc (lt : float -> float -> bool) (ts : list float) (t : float) :
  ts <> [] -> ordered lt (ts ++ [t]) = ordered lt ts && lt (last ts 0) t.
Proof.
  induction ts as [|u ts IH]; [contradiction|]. intros _.
  destruct ts as [|w ts].
  - cbn. now rewrite andb_true_r.
  - change ((u :: w :: ts) ++ [t]) with (u :: ((w :: ts) ++ [t])).
    rewrite !ordered_cons. change ((w :: ts) ++ [t]) with (w :: (ts ++ [t])) at 1.
    cbv iota. rewrite IH by discriminate. change (last (u :: w :: ts) 0) with (last (w :: ts) 0).
    now rewrite andb_assoc.
Qed.

Lemma samples_ordered (n a : nat) :
  (Z.of_nat (a + n) <= 2 ^ 53)%Z -> ordered ltb (map sample (seq a n)) = true.
Proof.
  revert a. induction n as [|n IH]; intros a Ha; [reflexivity|].
  cbn [seq map]. rewrite ordered_cons.
  destruct n as [|n]; [reflexivity|].
  change (map sample (seq (S a) (S n))) with (sample (S a) :: map sample (seq (S (S a)) n)) at 1.
  cbv iota. rewrite sample_ascending by lia. cbn [andb].
  apply IH. lia.
Qed.

Lemma int_part_nonneg (m : positive) (e : Z) : (0 <= JS.int_part m e)%Z.
Proof.
  unfold JS.int_part. destruct (0 <=? e)%Z.
  - apply Z.shiftl_nonneg. lia.
  - apply Z.shiftr_nonneg. lia.
Qed.

Lemma ToLength_bounds (x : float) : (0 <= JS.ToLength x <= JS.max_safe_integer)%Z.
Proof.
  unfold JS.ToLength.
  destruct (Prim2SF x) as [s|[|]| |[|] m e]; try (unfold JS.max_safe_integer; lia).
  pose proof (int_part_nonneg m e). unfold JS.max_safe_integer in *. lia.
Qed.

Lemma samples_ascending (interval : float) : ordered ltb (samples interval) = true.
Proof.
  unfold samples. apply (samples_ordered _ 0).
  pose proof (ToLength_bounds (JS.Math_ceil (interval * 2))) as H.
  unfold JS.max_safe_integer in H. lia.
Qed.

Lemma samples_length (interval : float) :
  Z.of_nat (List.length (samples interval)) = JS.ToLength (JS.Math_ceil (interval * 2)).
Proof.
  unfold samples. rewrite length_map, length_seq, Z2Nat.id; [reflexivity|].
  apply ToLength_bounds.
Qed.

Lemma samples_nth (interval : float) (k : nat) :
  (k < List.length (samples interval))%nat ->
  nth_error (samples interval) k = Some (JS.of_Z (Z.of_nat k) / 2).
Proof.
  unfold samples. rewrite length_map, length_seq. intros Hk.
  rewrite nth_error_map, nth_error_seq.
  apply Nat.ltb_lt in Hk. rewrite Hk. reflexivity.
Qed.

(** ** The number of samples *)

(** A valid mantissa has 53 bits, or fewer at the least exponent. *)
Lemma valid_finite (s : bool) (m : positive) (e : Z) :
  valid_binary (S754_finite s m e) = true ->
  (e <= 971)%Z /\ (Pos.size m = 53%positive /\ (-1074 <= e)%Z
                   \/ e = (-1074)%Z /\ (Zpos (Pos.size m) < 53)%Z).
Proof.
  cbn [SpecFloat.valid_binary]. unfold bounded, canonical_mantissa.
  rewrite andb_true_iff, Z.eqb_eq, Z.leb_le, digits2_size.
  unfold fexp, SpecFloat.emin, emax, prec. intros [Hc He]. split; [lia|].
  destruct (Z.eq_dec (Zpos (Pos.size m)) 53) as [E|E]; [left | right]; lia.
Qed.


Lemma double_SF (x : float) :
  (0 <? x) = true ->
  Prim2SF (x * 2) = S754_infinity false
  \/ exists m e, Prim2SF (x * 2) = S754_finite false m e.
Proof.
  rewrite ltb_spec, mul_spec. change (Prim2SF 0) with (S754_zero false).
  change (Prim2SF 2) with (S754_finite false 4503599627370496 (-51)).
  pose proof (Prim2SF_valid x) as Hv.
  destruct (Prim2SF x) as [[|]|[|]| |[|] m e]; cbv [SFltb SFcompare]; try discriminate.
  - intros _. left. reflexivity.
  - intros _. apply valid_finite in Hv. destruct Hv as [Hmax [[Hm He] | [He Hm]]].
    + unfold SF64mul, SFmul. cbn [xorb].
      rewrite Pos.mul_comm. cbn [Pos.mul].
      unfold binary_round_aux.
      match goal with
      | |- context [shr_fexp prec emax (Zpos ?M) (e + -51) loc_Exact] =>
          assert (shr_fexp prec emax (Zpos M) (e + -51) loc_Exact
                  = ({| shr_m := Zpos m; shr_r := false; shr_s := false |}, (e + 1)%Z)) as ->
      end.
      { unfold shr_fexp, Zdigits2. cbn [digits2_pos]. rewrite digits2_size, Hm.
        match goal with
        | |- context [(fexp prec emax ?a - ?b)%Z] =>
            replace (fexp prec emax a - b)%Z with 52%Z
              by (unfold fexp, SpecFloat.emin, prec, emax; cbn [Pos.succ]; lia)
        end.
        cbn [shr iter_pos shr_1 shr_record_of_loc orb]. f_equal. lia. }
      cbn [shr_m loc_of_shr_record round_nearest_even].
      assert (shr_fexp prec emax (Zpos m) (e + 1) loc_Exact
              = ({| shr_m := Zpos m; shr_r := false; shr_s := false |}, (e + 1)%Z)) as ->.
      { unfold shr_fexp, Zdigits2. rewrite digits2_size, Hm.
        replace (fexp prec emax (53 + (e + 1)) - (e + 1))%Z with 0%Z
          by (unfold fexp, SpecFloat.emin, prec, emax; lia).
        reflexivity. }
      cbn [shr_m]. destruct (e + 1 <=? emax - prec)%Z; [right; eexists; eexists; reflexivity | left; reflexivity].
    + subst e. unfold SF64mul, SFmul. cbn [xorb].
      rewrite Pos.mul_comm. cbn [Pos.mul].
      unfold binary_round_aux.
      match goal with
      | |- context [shr_fexp prec emax (Zpos ?M) (-1074 + -51) loc_Exact] =>
          assert (shr_fexp prec emax (Zpos M) (-1074 + -51) loc_Exact
                  = ({| shr_m := Zpos m~0; shr_r := false; shr_s := false |}, (-1074)%Z)) as ->
      end.
      { unfold shr_fexp, Zdigits2. cbn [digits2_pos]. rewrite digits2_size.
        match goal with
        | |- context [(fexp prec emax ?a - ?b)%Z] =>
            replace (fexp prec emax a - b)%Z with 51%Z
              by (unfold fexp, SpecFloat.emin, prec, emax; lia)
        end.
        cbn [shr iter_pos shr_1 shr_record_of_loc orb]. reflexivity. }
      cbn [shr_m loc_of_shr_record round_nearest_even].
      assert (shr_fexp prec emax (Zpos m~0) (-1074) loc_Exact
              = ({| shr_m := Zpos m~0; shr_r := false; shr_s := false |}, (-1074)%Z)) as ->.
      { unfold shr_fexp, Zdigits2. cbn [digits2_pos]. rewrite digits2_size.
        replace (fexp prec emax (Zpos (Pos.succ (Pos.size m)) + -1074) - -1074)%Z with 0%Z
          by (unfold fexp, SpecFloat.emin, prec, emax; lia).
        reflexivity. }
      cbn [shr_m]. right. change (-1074 <=? emax - prec)%Z with true. eexists; eexists; reflexivity.
Qed.

Lemma int_part_canonical (p : positive) :
  (Zpos p < 2 ^ 53)%Z -> JS.int_part (mantissa p) (exponent p) = Zpos p.
Proof.
  intros Hp. pose proof (size_below p 53 ltac:(lia) Hp) as Hs.
  unfold JS.int_part. rewrite (mantissa_Z p Hp). unfold exponent.
  destruct (0 <=? Zpos (Pos.size p) - 53)%Z eqn:E.
  - apply Z.leb_le in E. replace (Zpos (Pos.size p) - 53)%Z with 0%Z by lia.
    replace (53 - Zpos (Pos.size p))%Z with 0%Z by lia.
    rewrite Z.shiftl_0_r. lia.
  - rewrite Z.shiftr_div_pow2 by lia.
    replace (- (Zpos (Pos.size p) - 53))%Z with (53 - Zpos (Pos.size p))%Z by lia.
    apply Z.div_mul. apply Z.pow_nonzero; lia.
Qed.

Lemma ToLength_of_Z (k : Z) : (0 <= k < 2 ^ 53)%Z -> JS.ToLength (JS.of_Z k) = k.
Proof.
  intros Hk. destruct k as [|p|p]; [reflexivity| |lia].
  unfold JS.ToLength. rewrite of_Z_SF by lia. rewrite int_part_canonical by lia.
  unfold JS.max_safe_integer. lia.
Qed.

Lemma size_above (m : positive) : Pos.size m = 53%positive -> (2 ^ 52 <= Zpos m < 2 ^ 53)%Z.
Proof. intros H. pose proof (size_bounds m) as Hb. rewrite H in Hb. exact Hb. Qed.

(** The length [Math.ceil] denotes, read back as a number. *)
Lemma ceil_count (y : float) :
  Prim2SF y = S754_infinity false \/ (exists m e, Prim2SF y = S754_finite false m e) ->
  (JS.ToLength (JS.Math_ceil y) <= JS.max_array_length)%Z ->
  JS.of_Z (JS.ToLength (JS.Math_ceil y)) = JS.Math_ceil y.
Proof.
  intros Hy. pose proof (Prim2SF_valid y) as Hv.
  unfold JS.Math_ceil.
  destruct Hy as [Hy | (m & e & Hy)]; rewrite Hy in *.
  - unfold JS.ToLength. rewrite Hy. unfold JS.max_safe_integer, JS.max_array_length. lia.
  - apply valid_finite in Hv. destruct Hv as [Hmax Hv].
    destruct (0 <=? e)%Z eqn:E.
    + apply Z.leb_le in E. unfold JS.ToLength. rewrite Hy.
      destruct Hv as [[Hm _] | [He _]]; [|lia].
      apply size_above in Hm. unfold JS.int_part.
      replace (0 <=? e)%Z with true by (symmetry; apply Z.leb_le; lia).
      rewrite Z.shiftl_mul_pow2 by lia.
      assert (0 < 2 ^ e)%Z by (apply Z.pow_pos_nonneg; lia).
      unfold JS.max_safe_integer, JS.max_array_length. intros Hfit. exfalso.
      assert (2 ^ 52 * 1 <= Zpos m * 2 ^ e)%Z by (apply Z.mul_le_mono_nonneg; lia).
      lia.
    + apply Z.leb_gt in E. intros _.
      assert (0 <= JS.int_part m e < 2 ^ 52)%Z as Hq.
      { unfold JS.int_part. replace (0 <=? e)%Z with false by (symmetry; apply Z.leb_gt; lia).
        rewrite Z.shiftr_div_pow2 by lia.
        assert (Zpos m < 2 ^ 53)%Z as Hm.
        { destruct Hv as [[Hm _] | [_ Hm]].
          - apply size_above in Hm. lia.
          - pose proof (size_bounds m) as [_ Hb].
            apply Z.lt_le_trans with (1 := Hb). apply Z.pow_le_mono_r; lia. }
        assert (2 <= 2 ^ (- e))%Z.
        { change 2%Z with (2 ^ 1)%Z at 1. apply Z.pow_le_mono_r; lia. }
        split; [apply Z.div_pos; lia|].
        apply Z.div_lt_upper_bound; lia. }
      rewrite ToLength_of_Z; [reflexivity|].
      destruct (JS.frac_part m e =? 0)%Z; lia.
Qed.

Lemma samples_count (interval : float) :
  (0 <? interval) = true -> array_fits interval = true ->
  JS.of_Z (Z.of_nat (List.length (samples interval))) = JS.Math_ceil (interval * 2).
Proof.
  intros Hi Hfit. rewrite samples_length. apply ceil_count.
  - now apply double_SF.
  - apply Z.leb_le. exact Hfit.
Qed.

(** The ceiling of a positive number denotes a length of at least 1. *)
Lemma ceil_at_least_one (y : float) :
  Prim2SF y = S754_infinity false \/ (exists m e, Prim2SF y = S754_finite false m e) ->
  (1 <= JS.ToLength (JS.Math_ceil y))%Z.
Proof.
  intros Hy. pose proof (Prim2SF_valid y) as Hv.
  unfold JS.Math_ceil.
  destruct Hy as [Hy | (m & e & Hy)]; rewrite Hy in *.
  - unfold JS.ToLength. rewrite Hy. unfold JS.max_safe_integer. lia.
  - apply valid_finite in Hv. destruct Hv as [Hmax Hv].
    assert (Zpos m < 2 ^ 53)%Z as Hm.
    { destruct Hv as [[Hm _] | [_ Hm]].
      - apply size_above in Hm. lia.
      - pose proof (size_bounds m) as [_ Hb].
        apply Z.lt_le_trans with (1 := Hb). apply Z.pow_le_mono_r; lia. }
    destruct (0 <=? e)%Z eqn:E.
    + apply Z.leb_le in E. unfold JS.ToLength, JS.int_part. rewrite Hy.
      replace (0 <=? e)%Z with true by (symmetry; apply Z.leb_le; lia).
      rewrite Z.shiftl_mul_pow2 by lia.
      assert (0 < 2 ^ e)%Z by (apply Z.pow_pos_nonneg; lia).
      assert (1 * 1 <= Zpos m * 2 ^ e)%Z by (apply Z.mul_le_mono_nonneg; lia).
      unfold JS.max_safe_integer. lia.
    + apply Z.leb_gt in E.
      unfold JS.int_part, JS.frac_part.
      replace (0 <=? e)%Z with false by (symmetry; apply Z.leb_gt; lia).
      rewrite Z.shiftr_div_pow2, Z.land_ones by lia.
      assert (2 <= 2 ^ (- e))%Z as Hd.
      { change 2%Z with (2 ^ 1)%Z at 1. apply Z.pow_le_mono_r; lia. }
      pose proof (Z.div_mod (Zpos m) (2 ^ (- e)) ltac:(lia)) as Hdiv.
      pose proof (Z.mod_pos_bound (Zpos m) (2 ^ (- e)) ltac:(lia)) as Hmod.
      assert (0 <= Zpos m / 2 ^ (- e) < 2 ^ 52)%Z as Hq.
      { split; [apply Z.div_pos; lia|]. apply Z.div_lt_upper_bound; lia. }
      rewrite ToLength_of_Z.
      * destruct (Z.eqb_spec (Zpos m mod 2 ^ (- e)) 0) as [E0|E0]; [|lia].
        rewrite E0 in Hdiv.
        destruct (Z.eq_dec (Zpos m / 2 ^ (- e)) 0) as [Q0|Q0]; [|lia].
        rewrite Q0 in Hdiv. lia.
      * destruct (Zpos m mod 2 ^ (- e) =? 0)%Z; lia.
Qed.

Lemma samples_nonempty (interval : float) : (0 <? interval) = true -> samples interval <> [].
Proof.
  intros Hi Hnil. apply (f_equal (@List.length float)) in Hnil.
  apply (f_equal Z.of_nat) in Hnil. rewrite samples_length in Hnil. cbn in Hnil.
  pose proof (ceil_at_least_one (interval * 2) (double_SF interval Hi)). lia.
Qed.

(** ** Division by zero *)

Lemma of_spec_float (x : float) (sf : spec_float) : Prim2SF x = sf -> x = SF2Prim sf.
Proof. intros <-. symmetry. apply SF2Prim_Prim2SF. Qed.

(** A product with zero is a zero or NaN. *)
Lemma times_zero (x : float) : x * 0 = 0 \/ x * 0 = neg_zero \/ x * 0 = nan.
Proof.
  pose proof (mul_spec x 0) as H. change (Prim2SF 0) with (S754_zero false) in H.
  destruct (Prim2SF x) as [[|]|[|]| |[|] m e]; cbn in H;
    apply of_spec_float in H; rewrite H; cbn; auto.
Qed.

(** A quotient by zero or by NaN is not finite. *)
Lemma over_zero (x d : float) : d = 0 \/ d = nan -> is_finite (x / d) = false.
Proof.
  intros Hd. pose proof (FloatAxioms.div_spec x d) as H.
  destruct Hd as [-> | ->];
    [change (Prim2SF 0) with (S754_zero false) in H
    |change (Prim2SF nan) with S754_nan in H];
    destruct (Prim2SF x) as [[|]|[|]| |[|] m e]; cbn in H;
    apply of_spec_float in H; rewrite H; reflexivity.
Qed.

(** ** The body of [simulatePK] *)

Section Properties.

Variable Math_exp : float -> float.
Variable Number_toString_host : float -> string.

Local Abbreviation str := (JS.Number_toString Number_toString_host).
Local Abbreviation frame_of := (simulatePK_frame Math_exp Number_toString_host).
Local Abbreviation simulate := (simulatePK Math_exp Number_toString_host).
Local Abbreviation switch := (pk_switch Math_exp).

Lemma evaluate_table (a : antibiotic) (v : locals) (dose interval weight : float) :
  evaluate Number_toString_host a v dose interval weight
  = Return (label (fst (table a v dose interval weight)),
            wording str (snd (table a v dose interval weight))).
Proof.
  destruct a; cbn -[JS.Math_round JS.Number_toString];
    unfold Spec.evaluate_continuous, Spec.evaluate_intermittent,
           Spec.evaluate_aminoglycoside, Spec.round;
    cbn -[JS.Math_round JS.Number_toString];
    repeat match goal with
           | |- context [if ?b then _ else _] => destruct b
           end; reflexivity.
Qed.

(** The three completions of the body. *)
Lemma frame_cases (a : antibiotic) (dose interval weight crCl : float)
    (level : option float) (levelType : string) (randomTime : option float) :
  frame_of a dose interval weight crCl level levelType randomTime
  = if (dose <=? 0) || (interval <=? 0) then Throw (Error simulate_message)
    else if array_fits interval then
      let v := switch a dose interval weight (normalize crCl weight) in
      let mt := measuredTime v interval level levelType randomTime in
      Return {| vars := v;
                timePoints := push_measured (samples interval) mt mt;
                concentrations :=
                  push_measured (map (concentration Math_exp v dose weight) (samples interval))
                                mt level;
                status := label (fst (table a v dose interval weight));
                suggestion := wording str (snd (table a v dose interval weight)) |}
    else Throw RangeError.
Proof.
  unfold simulatePK_frame, Array_from_length, array_fits.
  destruct ((dose <=? 0) || (interval <=? 0)); [reflexivity|].
  rewrite Z.leb_antisym.
  destruct (JS.max_array_length <? _)%Z; [reflexivity|].
  cbn [negb bind]. rewrite evaluate_table. reflexivity.
Qed.

Lemma frame_valid (a : antibiotic) (dose interval weight crCl : float)
    (level : option float) (levelType : string) (randomTime : option float)
    (P : frame -> Prop) :
  (0 <? dose) = true -> (0 <? interval) = true ->
  (let v := switch a dose interval weight (normalize crCl weight) in
   let mt := measuredTime v interval level levelType randomTime in
   P {| vars := v;
        timePoints := push_measured (samples interval) mt mt;
        concentrations :=
          push_measured (map (concentration Math_exp v dose weight) (samples interval))
                        mt level;
        status := label (fst (table a v dose interval weight));
        suggestion := wording str (snd (table a v dose interval weight)) |}) ->
  reaches (frame_of a dose interval weight crCl level levelType randomTime) interval P.
Proof.
  intros Hd Hi HP. rewrite frame_cases.
  rewrite (positive_passes _ Hd), (positive_passes _ Hi). cbn [orb].
  destruct (array_fits interval) eqn:Hfit; cbn; auto.
Qed.

(** C6. [calculateClearance] throws exactly when [weight <= 0] or
    [creatinine <= 0], and what it throws is the error whose message names
    weight and creatinine; [simulatePK] throws an [Error] exactly when
    [dose <= 0] or [interval <= 0], whatever the other arguments, and its
    message names dose and interval; the two messages differ.  A message
    tells which of the two checks failed and no more: every failing call of
    [calculateClearance] throws the same error, and every [Error] of
    [simulatePK] has the same message, whichever quantity was at fault. *)
Theorem invalid_input_errors (weight ageValue : float) (ageUnit : AgeUnit) (creatinine : float)
    (a : antibiotic) (dose interval pk_weight crCl : float)
    (level : option float) (levelType : string) (randomTime : option float) :
  (forall e, calculateClearance weight ageValue ageUnit creatinine = Throw e
             <-> (weight <=? 0) || (creatinine <=? 0) = true /\ e = Error clearance_message)
  /\ (forall msg,
        simulate a dose interval pk_weight crCl level levelType randomTime = Throw (Error msg)
        <-> (dose <=? 0) || (interval <=? 0) = true /\ msg = simulate_message)
  /\ clearance_message = "Peso e creatinina devem ser maiores que 0."%string
  /\ simulate_message = "Dose e intervalo devem ser maiores que 0."%string
  /\ String.eqb clearance_message simulate_message = false
  /\ (forall weight' ageValue' ageUnit' creatinine' e e',
        calculateClearance weight ageValue ageUnit creatinine = Throw e ->
        calculateClearance weight' ageValue' ageUnit' creatinine' = Throw e' ->
        e = e')
  /\ (forall a' dose' interval' pk_weight' crCl' level' levelType' randomTime' msg msg',
        simulate a dose interval pk_weight crCl level levelType randomTime
        = Throw (Error msg) ->
        simulate a' dose' interval' pk_weight' crCl' level' levelType' randomTime'
        = Throw (Error msg') ->
        msg = msg').
Proof.
  assert (forall w v u c e,
             calculateClearance w v u c = Throw e
             <-> (w <=? 0) || (c <=? 0) = true /\ e = Error clearance_message) as Hclearance.
  { intros w v u c e. unfold calculateClearance.
    destruct ((w <=? 0) || (c <=? 0)); split.
    - intros [= <-]. auto.
    - intros [_ ->]. reflexivity.
    - discriminate.
    - intros [[=] _]. }
  assert (forall b d i w c l t r msg,
             simulate b d i w c l t r = Throw (Error msg)
             <-> (d <=? 0) || (i <=? 0) = true /\ msg = simulate_message) as Hsimulate.
  { intros b d i w c l t r msg. unfold simulatePK. rewrite frame_cases.
    destruct ((d <=? 0) || (i <=? 0)); cbn [bind]; split.
    - intros [= <-]. auto.
    - intros [_ ->]. reflexivity.
    - destruct (array_fits i); cbn [bind]; [|discriminate].
      unfold PK_return. cbn [vars]. destruct (t1_2 _); discriminate.
    - intros [[=] _]. }
  split; [intros e; apply Hclearance|].
  split; [intros msg; apply Hsimulate|].
  do 3 (split; [reflexivity|]). split.
  - intros w' v' u' c' e e' H H'.
    apply Hclearance in H as [_ ->]. apply Hclearance in H' as [_ ->]. reflexivity.
  - intros a' d' i' w' c' l' t' r' msg msg' H H'.
    apply Hsimulate in H as [_ ->]. apply Hsimulate in H' as [_ ->]. reflexivity.
Qed.

(** C1. On valid input the locals of [simulatePK] at its [return] statement
    are the specification's formulas on the clearance normalized to
    L/h/kg: Cmax, Cmin and AUC of an intermittent infusion for
    vancomycin_intermittent and the aminoglycosides, the steady state for
    vancomycin_continuous. *)
Theorem simulate_formulas (a : antibiotic) (dose interval weight clearance : float)
    (level : option float) (levelType : string) (randomTime : option float) :
  (0 <? weight) = true -> (0 <? dose) = true -> (0 <? interval) = true ->
  (0 <=? clearance) = true ->
  reaches (frame_of a dose interval weight clearance level levelType randomTime) interval
    (fun f =>
       let v := vars f in
       let crCl := Spec.crCl clearance weight in
       Vd v = Spec.Vd a /\ Ke v = Spec.Ke a crCl /\ infusionTime v = Spec.infusion a /\
       match a with
       | vancomycin_continuous =>
           auc v = Spec.AUC_continuous dose weight crCl
           /\ Cmax v = auc v / 24 /\ Cmin v = auc v / 24
       | _ =>
           Cmax v = Spec.Cmax Math_exp a dose weight crCl
           /\ Cmin v = Spec.Cmin Math_exp a dose interval weight crCl
           /\ auc v = Spec.AUC a dose interval weight crCl
       end).
Proof.
  intros _ Hd Hi _. apply frame_valid; trivial.
  destruct a; cbn; repeat split; reflexivity.
Qed.

(** The result on valid input for the antibiotics whose [switch] case
    assigns the half-life. *)
Lemma simulate_valid (a : antibiotic) (dose interval weight crCl : float)
    (level : option float) (levelType : string) (randomTime : option float)
    (P : PKResult.t -> Prop) :
  continuous a = false -> (0 <? dose) = true -> (0 <? interval) = true ->
  (forall f,
      frame_of a dose interval weight crCl level levelType randomTime = Return f ->
      forall half_life, t1_2 (vars f) = Some half_life ->
      P {| PKResult.timePoints := timePoints f;
           PKResult.concentrations := concentrations f;
           PKResult.Cmax := JS.toFixed2 Number_toString_host (Cmax (vars f));
           PKResult.Cmin := JS.toFixed2 Number_toString_host (Cmin (vars f));
           PKResult.auc := JS.toFixed2 Number_toString_host (auc (vars f));
           PKResult.t1_2 := JS.toFixed2 Number_toString_host half_life;
           PKResult.status := status f;
           PKResult.suggestion := suggestion f |}) ->
  reaches (simulate a dose interval weight crCl level levelType randomTime) interval P.
Proof.
  intros Ha Hd Hi HP. unfold simulatePK.
  pose proof (frame_valid a dose interval weight crCl level levelType randomTime
                (fun f => exists h, t1_2 (vars f) = Some h) Hd Hi) as Hf.
  destruct (frame_of a dose interval weight crCl level levelType randomTime) as [f|e] eqn:E.
  - destruct Hf as [h Hh]; [destruct a; try discriminate Ha; cbn; eauto|].
    cbn [bind reaches]. unfold PK_return. rewrite Hh. cbn [reaches].
    now apply HP.
  - cbn [bind reaches]. apply Hf. destruct a; try discriminate Ha; cbn; eauto.
Qed.

Lemma frame_returned (a : antibiotic) (dose interval weight crCl : float)
    (level : option float) (levelType : string) (randomTime : option float) (f : frame) :
  frame_of a dose interval weight crCl level levelType randomTime = Return f ->
  let v := switch a dose interval weight (normalize crCl weight) in
  let mt := measuredTime v interval level levelType randomTime in
  f = {| vars := v;
         timePoints := push_measured (samples interval) mt mt;
         concentrations :=
           push_measured (map (concentration Math_exp v dose weight) (samples interval))
                         mt level;
         status := label (fst (table a v dose interval weight));
         suggestion := wording str (snd (table a v dose interval weight)) |}.
Proof.
  rewrite frame_cases.
  destruct ((dose <=? 0) || (interval <=? 0)); [discriminate|].
  destruct (array_fits interval); [|discriminate].
  intros [= <-]. reflexivity.
Qed.

Lemma frame_fits (a : antibiotic) (dose interval weight crCl : float)
    (level : option float) (levelType : string) (randomTime : option float) (f : frame) :
  frame_of a dose interval weight crCl level levelType randomTime = Return f ->
  array_fits interval = true.
Proof.
  rewrite frame_cases.
  destruct ((dose <=? 0) || (interval <=? 0)); [discriminate|].
  destruct (array_fits interval); [reflexivity | discriminate].
Qed.

(** C3. On valid input with vancomycin_intermittent or an aminoglycoside,
    status and suggestion of the result are those of the specification's
    first-match table on the computed Cmax, Cmin and AUC, with the static
    ranges of the drug, every suggested dose and interval rounded. *)
Theorem evaluation_follows_table (a : antibiotic) (dose interval weight clearance : float)
    (level : option float) (levelType : string) (randomTime : option float) :
  continuous a = false ->
  (0 <? weight) = true -> (0 <? dose) = true -> (0 <? interval) = true ->
  (0 <=? clearance) = true ->
  reaches (simulate a dose interval weight clearance level levelType randomTime) interval
    (fun r =>
       let crCl := Spec.crCl clearance weight in
       let Cmax := Spec.Cmax Math_exp a dose weight crCl in
       let Cmin := Spec.Cmin Math_exp a dose interval weight crCl in
       let auc := Spec.AUC a dose interval weight crCl in
       let decision :=
         match a with
         | vancomycin_intermittent => Spec.evaluate_intermittent auc Cmin dose interval
         | _ => Spec.evaluate_aminoglycoside a Cmax Cmin dose interval
         end in
       PKResult.status r = label (fst decision)
       /\ PKResult.suggestion r = wording str (snd decision)).
Proof.
  intros Ha _ Hd Hi _. apply simulate_valid; trivial.
  intros f Hf h _. apply frame_returned in Hf. subst f. cbn [status suggestion PKResult.status PKResult.suggestion].
  destruct a; try discriminate Ha; split; reflexivity.
Qed.

(** C4. On valid input with vancomycin_continuous, the status and the
    suggestion the evaluation assigns are those of the specification's
    first-match table: AUC below 400, AUC above 600, steady state outside
    [20, 25], adequate. *)
Theorem continuous_evaluation (dose interval weight clearance : float)
    (level : option float) (levelType : string) (randomTime : option float) :
  (0 <? weight) = true -> (0 <? dose) = true -> (0 <? interval) = true ->
  (0 <=? clearance) = true ->
  reaches (frame_of vancomycin_continuous dose interval weight clearance
                    level levelType randomTime) interval
    (fun f =>
       let crCl := Spec.crCl clearance weight in
       let auc := Spec.AUC_continuous dose weight crCl in
       let decision :=
         Spec.evaluate_continuous auc (auc / 24) (Spec.Vd vancomycin_continuous)
                                  (Spec.Ke vancomycin_continuous crCl) dose weight in
       status f = label (fst decision) /\ suggestion f = wording str (snd decision)).
Proof.
  intros _ Hd Hi _. apply frame_valid; trivial. split; reflexivity.
Qed.

Lemma wording_empty (s : Spec.advice) : wording str s = EmptyString <-> s = Spec.keep.
Proof. destruct s; cbn; split; intros H; try reflexivity; discriminate. Qed.

Lemma label_adequate (s : Spec.verdict) : label s = "Adequada"%string <-> s = Spec.Adequada.
Proof. destruct s; cbn; split; intros H; try reflexivity; discriminate. Qed.

Lemma table_keep (a : antibiotic) (v : locals) (dose interval weight : float) :
  snd (table a v dose interval weight) = Spec.keep
  <-> fst (table a v dose interval weight) = Spec.Adequada.
Proof.
  destruct a; cbn -[JS.Math_round];
    unfold Spec.evaluate_continuous, Spec.evaluate_intermittent,
           Spec.evaluate_aminoglycoside;
    cbn -[JS.Math_round];
    repeat match goal with
           | |- context [if ?b then _ else _] => destruct b
           end; cbn; split; intros H; try reflexivity; discriminate.
Qed.

(** C10. On valid input with any of the five antibiotics the evaluation
    leaves in [status] one of the four status strings, and [suggestion] is
    empty exactly when the status is 'Adequada'. *)
Theorem status_and_suggestion (a : antibiotic) (dose interval weight clearance : float)
    (level : option float) (levelType : string) (randomTime : option float) :
  (0 <? weight) = true -> (0 <? dose) = true -> (0 <? interval) = true ->
  (0 <=? clearance) = true ->
  reaches (frame_of a dose interval weight clearance level levelType randomTime) interval
    (fun f =>
       In (status f) ["Insuficiente"; "Excessiva"; "Adequada"; "Fora da faixa estável"]%string
       /\ (suggestion f = EmptyString <-> status f = "Adequada"%string)).
Proof.
  intros _ Hd Hi _. apply frame_valid; trivial. cbn [status suggestion]. split.
  - destruct (fst (table _ _ _ _ _)); cbn; auto.
  - rewrite wording_empty, label_adequate. apply table_keep.
Qed.


Lemma positive_truthy (x : float) : (0 <? x) = true -> JS.truthy x = true.
Proof.
  unfold JS.truthy, is_zero, is_nan, zero.
  rewrite ltb_spec, !eqb_spec. change (Prim2SF 0) with (S754_zero false).
  destruct (Prim2SF x) as [[|]|[|]| |[|] m e]; cbv [SFltb SFeqb SFcompare];
    try congruence; intros _; [reflexivity|].
  rewrite Z.compare_refl.
  change (PosDef.Pos.compare_cont Eq m m) with (Pos.compare m m).
  rewrite Pos.compare_refl. reflexivity.
Qed.

Lemma measuredTime_overlay (a : antibiotic) (dose interval weight crCl l : float)
    (levelType : string) (randomTime : option float) :
  (0 <? l) = true -> negb (String.eqb levelType "") = true ->
  measuredTime (switch a dose interval weight crCl) interval (Some l) levelType randomTime
  = overlay_time a interval levelType randomTime.
Proof.
  intros Hl Ht. unfold measuredTime, overlay_time, supplied, non_negative.
  rewrite (positive_truthy _ Hl), Ht. cbn [andb].
  replace (infusionTime (switch a dose interval weight crCl)) with (Spec.infusion a)
    by (destruct a; reflexivity).
  destruct (String.eqb levelType "peak"); [reflexivity|].
  destruct (String.eqb levelType "trough"); [reflexivity|].
  destruct (String.eqb levelType "random"); [|reflexivity].
  destruct randomTime as [r|]; [|reflexivity].
  cbn [andb]. destruct (0 <=? r); reflexivity.
Qed.

Lemma push_point {A : Type} (xs : list A) (when : option float) (x : A) :
  push_measured xs when (Some x) = xs ++ point when x.
Proof. destruct when; cbn; [reflexivity | now rewrite app_nil_r]. Qed.

Lemma push_time (xs : list float) (when : option float) :
  push_measured xs when when = xs ++ point when (match when with Some t => t | None => 0 end).
Proof. destruct when; cbn; [reflexivity | now rewrite app_nil_r]. Qed.

(** C8. On valid input with a measured level and a level type, the body
    appends one point to the curve of the call without a level: at the end
    of the infusion for a peak, at [interval - 0.1] for a trough, at
    [randomTime] for a random level when [randomTime >= 0]; for a random
    level with no time or a negative one it appends nothing.  Locals, status
    and suggestion are those of the call without a level, and so is what
    [simulatePK] throws, if it throws. *)
Theorem overlay_point (a : antibiotic) (dose interval weight clearance l : float)
    (levelType : string) (randomTime : option float) :
  (0 <? weight) = true -> (0 <? dose) = true -> (0 <? interval) = true ->
  (0 <=? clearance) = true -> (0 <? l) = true ->
  In levelType ["peak"; "trough"; "random"]%string ->
  reaches (frame_of a dose interval weight clearance (Some l) levelType randomTime) interval
    (fun f =>
       exists f0,
         frame_of a dose interval weight clearance None EmptyString None = Return f0
         /\ let at_time := overlay_time a interval levelType randomTime in
            timePoints f
            = timePoints f0 ++ point at_time (match at_time with Some t => t | None => 0 end)
            /\ concentrations f = concentrations f0 ++ point at_time l
            /\ vars f = vars f0 /\ status f = status f0 /\ suggestion f = suggestion f0)
  /\ (forall e,
        simulate a dose interval weight clearance (Some l) levelType randomTime = Throw e
        <-> simulate a dose interval weight clearance None EmptyString None = Throw e).
Proof.
  intros _ Hd Hi _ Hl Ht.
  assert (negb (String.eqb levelType "") = true) as Hne
    by (cbn in Ht; decompose [or] Ht; subst; try reflexivity; contradiction).
  pose proof (measuredTime_overlay a dose interval weight (normalize clearance weight)
                l levelType randomTime Hl Hne) as Hmt.
  unfold simulatePK. rewrite !frame_cases.
  rewrite (positive_passes _ Hd), (positive_passes _ Hi). cbn [orb].
  destruct (array_fits interval) eqn:Hfit; cbv zeta.
  - rewrite Hmt. cbn [reaches bind]. split.
    + eexists. split; [reflexivity|]. cbn [timePoints concentrations vars status suggestion].
      unfold measuredTime at 1 2. cbn [supplied push_measured].
      rewrite push_point, push_time. repeat split; reflexivity.
    + intros e. unfold PK_return. cbn [vars].
      destruct (t1_2 _); split; intros H; congruence.
  - cbn [reaches bind]. split; [auto|]. intros e; reflexivity.
Qed.

(** C9, amended. On valid input with vancomycin_intermittent or an
    aminoglycoside the half-life of the result is [0.693 / Ke], computed on
    floats and then written with two decimals: the script takes 0.693 for
    ln 2. *)
Theorem half_life_formatted (a : antibiotic) (dose interval weight clearance : float)
    (level : option float) (levelType : string) (randomTime : option float) :
  continuous a = false ->
  (0 <? weight) = true -> (0 <? dose) = true -> (0 <? interval) = true ->
  (0 <=? clearance) = true ->
  reaches (simulate a dose interval weight clearance level levelType randomTime) interval
    (fun r =>
       PKResult.t1_2 r
       = JS.toFixed2 Number_toString_host (0.693 / Spec.Ke a (Spec.crCl clearance weight))).
Proof.
  intros Ha _ Hd Hi _. apply simulate_valid; trivial.
  intros f Hf h Hh. apply frame_returned in Hf. subst f.
  cbn [PKResult.t1_2]. f_equal.
  destruct a; try discriminate Ha; cbn in Hh; injection Hh as <-; reflexivity.
Qed.

(** With vancomycin_continuous [simulatePK] never returns: the [switch]
    leaves [t1_2] undefined and the [return] statement calls [toFixed] on
    it. *)
Lemma continuous_never_returns (dose interval weight crCl : float)
    (level : option float) (levelType : string) (randomTime : option float) :
  returns (simulate vancomycin_continuous dose interval weight crCl
                    level levelType randomTime) = false.
Proof.
  unfold simulatePK. rewrite frame_cases.
  destruct ((dose <=? 0) || (interval <=? 0)); [reflexivity|].
  destruct (array_fits interval); reflexivity.
Qed.

(** C2. [calculateClearance] followed by [simulatePK] never completes for
    vancomycin_continuous, whatever the patient and the dosing. *)
Theorem continuous_assessment_fails (weight ageValue : float) (ageUnit : AgeUnit)
    (creatinine dose interval : float)
    (level : option float) (levelType : string) (randomTime : option float) :
  returns (assess Math_exp Number_toString_host weight ageValue ageUnit creatinine
                  vancomycin_continuous dose interval level levelType randomTime) = false.
Proof.
  unfold assess.
  destruct (calculateClearance weight ageValue ageUnit creatinine) as [crCl|e];
    [cbn [bind]; apply continuous_never_returns | reflexivity].
Qed.

(** On valid input it throws a [TypeError], unless the array of samples
    cannot be created. *)
Lemma continuous_throws (dose interval weight crCl : float)
    (level : option float) (levelType : string) (randomTime : option float) :
  (0 <? dose) = true -> (0 <? interval) = true ->
  simulate vancomycin_continuous dose interval weight crCl level levelType randomTime
  = Throw (if array_fits interval then TypeError else RangeError).
Proof.
  intros Hd Hi. unfold simulatePK. rewrite frame_cases.
  rewrite (positive_passes _ Hd), (positive_passes _ Hi). cbn [orb].
  destruct (array_fits interval); reflexivity.
Qed.

(** C7, amended. On valid input with vancomycin_intermittent or an
    aminoglycoside, the times of the result are the samples, with the time
    of the measured level after them when one is appended.  The samples are
    as many as the length [Math.ceil(interval * 2)] denotes, the one at
    index [k] is [k / 2], and they ascend strictly: so do the times of the
    result when no level is appended, and when one is appended at a time
    after the last sample, and only then.  There is one concentration for
    each time. *)
Theorem curve_samples (a : antibiotic) (dose interval weight clearance : float)
    (level : option float) (levelType : string) (randomTime : option float) :
  continuous a = false ->
  (0 <? weight) = true -> (0 <? dose) = true -> (0 <? interval) = true ->
  (0 <=? clearance) = true ->
  reaches (simulate a dose interval weight clearance level levelType randomTime) interval
    (fun r =>
       exists overlay : list float,
         PKResult.timePoints r = samples interval ++ overlay
         /\ (List.length overlay <= 1)%nat
         /\ (level = None -> overlay = [])
         /\ JS.of_Z (Z.of_nat (List.length (samples interval))) = JS.Math_ceil (interval * 2)
         /\ (forall k, (k < List.length (samples interval))%nat ->
                       nth_error (PKResult.timePoints r) k = Some (JS.of_Z (Z.of_nat k) / 2))
         /\ ordered ltb (samples interval) = true
         /\ (overlay = [] -> ordered ltb (PKResult.timePoints r) = true)
         /\ (forall t, overlay = [t] ->
                       ordered ltb (PKResult.timePoints r) = (last (samples interval) 0 <? t))
         /\ List.length (PKResult.concentrations r) = List.length (PKResult.timePoints r)).
Proof.
  intros Ha _ Hd Hi _. apply simulate_valid; trivial.
  intros f Hf h _. pose proof (frame_fits _ _ _ _ _ _ _ _ _ Hf) as Hfit.
  apply frame_returned in Hf. subst f.
  cbn [timePoints concentrations PKResult.timePoints PKResult.concentrations].
  set (mt := measuredTime _ _ _ _ _).
  rewrite push_time.
  exists (point mt (match mt with Some t => t | None => 0 end)).
  split; [reflexivity|].
  split; [destruct mt; cbn; lia|].
  split; [intros ->; reflexivity|].
  split; [now apply samples_count|].
  split; [intros k Hk; rewrite nth_error_app1 by assumption; now apply samples_nth|].
  split; [apply samples_ascending|].
  split; [intros ->; rewrite app_nil_r; apply samples_ascending|].
  split.
  { intros t ->. rewrite ordered_snoc by (apply samples_nonempty; assumption).
    rewrite samples_ascending. reflexivity. }
  subst mt. destruct level as [l|].
  - rewrite push_point, !length_app, length_map.
    destruct (measuredTime _ _ _ _ _); reflexivity.
  - unfold measuredTime. cbn [supplied push_measured point].
    rewrite app_nil_r. apply length_map.
Qed.

End Properties.

(** ** The sample at time 0

    The standard fixes [Math.exp] at the zeros and at NaN. *)

Section TimeZero.

Variable Math_exp : float -> float.
Variable Number_toString_host : float -> string.
Hypothesis exp_zero : Math_exp 0 = 1.
Hypothesis exp_neg_zero : Math_exp neg_zero = 1.
Hypothesis exp_nan : Math_exp nan = nan.

(** The sample at time 0 divides by [1 - exp(0)]: it is an infinity or
    NaN. *)
Lemma sample_at_zero (a : antibiotic) (dose interval weight crCl : float) :
  is_finite (concentration Math_exp (pk_switch Math_exp a dose interval weight crCl)
                           dose weight (sample 0)) = false.
Proof.
  change (sample 0) with 0. unfold concentration.
  replace (0 <=? infusionTime _) with true by (destruct a; reflexivity).
  apply over_zero.
  destruct (times_zero (- Ke (pk_switch Math_exp a dose interval weight crCl)))
    as [-> | [-> | ->]];
    rewrite ?exp_zero, ?exp_neg_zero, ?exp_nan;
    destruct a; cbn [Vd pk_switch]; auto.
Qed.

(** Every curve starts with it. *)
Lemma first_concentration (a : antibiotic) (dose interval weight crCl : float)
    (level : option float) (levelType : string) (randomTime : option float) (f : frame) :
  simulatePK_frame Math_exp Number_toString_host a dose interval weight crCl
                   level levelType randomTime = Return f ->
  (0 <? interval) = true ->
  exists c rest, concentrations f = c :: rest /\ is_finite c = false.
Proof.
  intros Hf Hi. pose proof (samples_nonempty interval Hi) as Hne.
  apply frame_returned in Hf. subst f. cbn [concentrations].
  unfold samples in *.
  destruct (Z.to_nat _) as [|n]; [contradiction|]. cbn [seq map].
  unfold push_measured.
  destruct (measuredTime _ _ _ _ _), level; cbn [app];
    (do 2 eexists; split; [reflexivity | apply sample_at_zero]).
Qed.

End TimeZero.

(** ** The statements at concrete inputs

    A patient of 70 kg, 40 years old, with a creatinine of 1.0 mg/dL: the
    clearance is 97.22 mL/min. *)

Lemma clearance_branches_witness :
  (0 <? 70) = true /\ (0 <? 1) = true
  /\ calculateClearance 70 40 years 1
     = Return (JS.Math_max 0 (Spec.clearance 70 40 years 1))
  /\ calculateClearance 70 40 years 1 = Return 97.222222222222229.
Proof.
  split; [reflexivity|]. split; [reflexivity|].
  split; [|reflexivity].
  apply (clearance_branches 70 40 years 1); reflexivity.
Defined.

(** The failures of C2 at this patient: a [TypeError] for
    vancomycin_continuous, and an infinite first concentration for
    gentamicin, 420 mg every 8 h. *)
Lemma continuous_type_error :
  assess exp_ref digits_ref 70 40 years 1 vancomycin_continuous 2000 24
         None EmptyString None = Throw TypeError.
Proof. vm_compute. reflexivity. Qed.

Lemma first_sample_infinite :
  exists r,
    assess exp_ref digits_ref 70 40 years 1 gentamicin 420 8 None EmptyString None
    = Return r
    /\ nth_error (PKResult.timePoints r) 0 = Some 0
    /\ nth_error (PKResult.concentrations r) 0 = Some infinity.
Proof. eexists. split; [vm_compute; reflexivity|]. split; reflexivity. Qed.

(** C6 as stated fails: a weight of 0 with a valid creatinine and a
    creatinine of 0 with a valid weight throw one and the same error, and so
    do a dose of 0 and an interval of 0; the message does not tell which
    quantity failed its precondition. *)
Lemma one_message_for_either_field :
  ((0 <=? 0) = true /\ (1 <=? 0) = false
   /\ calculateClearance 0 40 years 1 = Throw (Error clearance_message))
  /\ ((70 <=? 0) = false /\ (0 <=? 0) = true
      /\ calculateClearance 70 40 years 0 = Throw (Error clearance_message))
  /\ ((0 <=? 0) = true /\ (8 <=? 0) = false
      /\ simulatePK exp_ref digits_ref gentamicin 0 8 70 97.22222222222223
                    None EmptyString None = Throw (Error simulate_message))
  /\ ((420 <=? 0) = false /\ (0 <=? 0) = true
      /\ simulatePK exp_ref digits_ref gentamicin 420 0 70 97.22222222222223
                    None EmptyString None = Throw (Error simulate_message)).
Proof. repeat split. Qed.

(** C5 as stated fails: an age of 29 days entered in years takes the
    pediatric branch, and the result is far from the adult estimate. *)
Lemma day_29_in_years_is_pediatric :
  ageInDays 0.07939767282683094 years = 29
  /\ pediatric 0.07939767282683094 years = true
  /\ calculateClearance 70 0.07939767282683094 years 1 = Return 21.043494866529773
  /\ JS.Math_max 0 ((140 - 0.07939767282683094) * 70 / (72 * 1)) = 136.03391892919615.
Proof. repeat split; reflexivity. Qed.

Lemma simulate_formulas_witness :
  (0 <? 70) = true /\ (0 <? 420) = true /\ (0 <? 8) = true
  /\ (0 <=? 97.22222222222223) = true
  /\ reaches (simulatePK_frame exp_ref digits_ref gentamicin 420 8 70 97.22222222222223
                               None EmptyString None) 8
       (fun f =>
          let v := vars f in
          let crCl := Spec.crCl 97.22222222222223 70 in
          Vd v = Spec.Vd gentamicin /\ Ke v = Spec.Ke gentamicin crCl
          /\ infusionTime v = Spec.infusion gentamicin
          /\ Cmax v = Spec.Cmax exp_ref gentamicin 420 70 crCl
          /\ Cmin v = Spec.Cmin exp_ref gentamicin 420 8 70 crCl
          /\ auc v = Spec.AUC gentamicin 420 8 70 crCl).
Proof.
  do 4 (split; [reflexivity|]).
  exact (simulate_formulas exp_ref digits_ref gentamicin 420 8 70 97.22222222222223
           None EmptyString None eq_refl eq_refl eq_refl eq_refl).
Defined.

Lemma evaluation_follows_table_witness :
  continuous gentamicin = false
  /\ (0 <? 70) = true /\ (0 <? 420) = true /\ (0 <? 8) = true
  /\ (0 <=? 97.22222222222223) = true
  /\ reaches (simulatePK exp_ref digits_ref gentamicin 420 8 70 97.22222222222223
                         None EmptyString None) 8
       (fun r =>
          let crCl := Spec.crCl 97.22222222222223 70 in
          let decision :=
            Spec.evaluate_aminoglycoside gentamicin
              (Spec.Cmax exp_ref gentamicin 420 70 crCl)
              (Spec.Cmin exp_ref gentamicin 420 8 70 crCl) 420 8 in
          PKResult.status r = label (fst decision)
          /\ PKResult.suggestion r = wording (JS.Number_toString digits_ref) (snd decision)).
Proof.
  do 5 (split; [reflexivity|]).
  exact (evaluation_follows_table exp_ref digits_ref gentamicin 420 8 70 97.22222222222223
           None EmptyString None eq_refl eq_refl eq_refl eq_refl eq_refl).
Defined.

Lemma continuous_evaluation_witness :
  (0 <? 70) = true /\ (0 <? 2000) = true /\ (0 <? 24) = true
  /\ (0 <=? 97.22222222222223) = true
  /\ reaches (simulatePK_frame exp_ref digits_ref vancomycin_continuous 2000 24 70
                               97.22222222222223 None EmptyString None) 24
       (fun f =>
          let crCl := Spec.crCl 97.22222222222223 70 in
          let auc := Spec.AUC_continuous 2000 70 crCl in
          let decision :=
            Spec.evaluate_continuous auc (auc / 24) (Spec.Vd vancomycin_continuous)
                                     (Spec.Ke vancomycin_continuous crCl) 2000 70 in
          status f = label (fst decision)
          /\ suggestion f = wording (JS.Number_toString digits_ref) (snd decision)).
Proof.
  do 4 (split; [reflexivity|]).
  exact (continuous_evaluation exp_ref digits_ref 2000 24 70 97.22222222222223
           None EmptyString None eq_refl eq_refl eq_refl eq_refl).
Defined.

Lemma status_and_suggestion_witness :
  (0 <? 70) = true /\ (0 <? 1000) = true /\ (0 <? 12) = true
  /\ (0 <=? 97.22222222222223) = true
  /\ reaches (simulatePK_frame exp_ref digits_ref vancomycin_intermittent 1000 12 70
                               97.22222222222223 None EmptyString None) 12
       (fun f =>
          In (status f) ["Insuficiente"; "Excessiva"; "Adequada"; "Fora da faixa estável"]%string
          /\ (suggestion f = EmptyString <-> status f = "Adequada"%string)).
Proof.
  do 4 (split; [reflexivity|]).
  exact (status_and_suggestion exp_ref digits_ref vancomycin_intermittent 1000 12 70
           97.22222222222223 None EmptyString None eq_refl eq_refl eq_refl eq_refl).
Defined.

Lemma overlay_point_witness :
  (0 <? 70) = true /\ (0 <? 1050) = true /\ (0 <? 24) = true
  /\ (0 <=? 97.22222222222223) = true /\ (0 <? 3) = true
  /\ In "random"%string ["peak"; "trough"; "random"]%string
  /\ (reaches (simulatePK_frame exp_ref digits_ref amikacin 1050 24 70 97.22222222222223
                                (Some 3) "random" (Some 5)) 24
        (fun f =>
           exists f0,
             simulatePK_frame exp_ref digits_ref amikacin 1050 24 70 97.22222222222223
                              None EmptyString None = Return f0
             /\ let at_time := overlay_time amikacin 24 "random" (Some 5) in
                timePoints f
                = timePoints f0
                  ++ point at_time (match at_time with Some t => t | None => 0 end)
                /\ concentrations f = concentrations f0 ++ point at_time 3
                /\ vars f = vars f0 /\ status f = status f0 /\ suggestion f = suggestion f0)
      /\ (forall e,
            simulatePK exp_ref digits_ref amikacin 1050 24 70 97.22222222222223
                       (Some 3) "random" (Some 5) = Throw e
            <-> simulatePK exp_ref digits_ref amikacin 1050 24 70 97.22222222222223
                           None EmptyString None = Throw e)).
Proof.
  do 5 (split; [reflexivity|]).
  split; [simpl; auto|].
  exact (overlay_point exp_ref digits_ref amikacin 1050 24 70 97.22222222222223 3
           "random" (Some 5) eq_refl eq_refl eq_refl eq_refl eq_refl
           (or_intror (or_intror (or_introl eq_refl)))).
Defined.

Lemma half_life_formatted_witness :
  continuous gentamicin = false
  /\ (0 <? 70) = true /\ (0 <? 420) = true /\ (0 <? 8) = true
  /\ (0 <=? 97.22222222222223) = true
  /\ reaches (simulatePK exp_ref digits_ref gentamicin 420 8 70 97.22222222222223
                         None EmptyString None) 8
       (fun r =>
          PKResult.t1_2 r
          = JS.toFixed2 digits_ref
              (0.693 / Spec.Ke gentamicin (Spec.crCl 97.22222222222223 70))).
Proof.
  do 5 (split; [reflexivity|]).
  exact (half_life_formatted exp_ref digits_ref gentamicin 420 8 70 97.22222222222223
           None EmptyString None eq_refl eq_refl eq_refl eq_refl eq_refl).
Defined.

(** C9 as stated fails: the half-life of the result is 67.66 where ln 2
    over the same Ke gives 67.68.  The half-life does not go through
    [Math.exp]. *)
Lemma half_life_is_not_ln2 :
  exists r,
    simulatePK exp_ref digits_ref gentamicin 420 8 70 97.22222222222223
               None EmptyString None = Return r
    /\ PKResult.t1_2 r = "67.66"%string
    /\ JS.toFixed2 digits_ref
         (Math_LN2 / Spec.Ke gentamicin (Spec.crCl 97.22222222222223 70))
       = "67.68"%string.
Proof.
  eexists. split; [vm_compute; reflexivity|]. split; reflexivity.
Qed.

Lemma curve_samples_witness :
  continuous vancomycin_intermittent = false
  /\ (0 <? 70) = true /\ (0 <? 1000) = true /\ (0 <? 12) = true
  /\ (0 <=? 97.22222222222223) = true
  /\ reaches (simulatePK exp_ref digits_ref vancomycin_intermittent 1000 12 70
                         97.22222222222223 (Some 30) "peak" None) 12
       (fun r =>
          exists overlay : list float,
            PKResult.timePoints r = samples 12 ++ overlay
            /\ (List.length overlay <= 1)%nat
            /\ (Some 30 = None -> overlay = [])
            /\ JS.of_Z (Z.of_nat (List.length (samples 12))) = JS.Math_ceil (12 * 2)
            /\ (forall k, (k < List.length (samples 12))%nat ->
                          nth_error (PKResult.timePoints r) k = Some (JS.of_Z (Z.of_nat k) / 2))
            /\ ordered ltb (samples 12) = true
            /\ (overlay = [] -> ordered ltb (PKResult.timePoints r) = true)
            /\ (forall t, overlay = [t] ->
                          ordered ltb (PKResult.timePoints r) = (last (samples 12) 0 <? t))
            /\ List.length (PKResult.concentrations r) = List.length (PKResult.timePoints r)).
Proof.
  do 5 (split; [reflexivity|]).
  exact (curve_samples exp_ref digits_ref vancomycin_intermittent 1000 12 70
           97.22222222222223 (Some 30) "peak" None eq_refl eq_refl eq_refl eq_refl eq_refl).
Defined.

(** C7 as stated fails: a measured peak is appended after the last sample,
    at the end of the infusion, and the times no longer ascend. *)
Lemma overlay_breaks_order :
  exists r,
    simulatePK exp_ref digits_ref vancomycin_intermittent 1000 12 70 97.22222222222223
               (Some 30) "peak" None = Return r
    /\ PKResult.timePoints r
       = [0; 0.5; 1; 1.5; 2; 2.5; 3; 3.5; 4; 4.5; 5; 5.5; 6; 6.5; 7; 7.5; 8; 8.5; 9; 9.5;
          10; 10.5; 11; 11.5; 1]
    /\ ordered leb (PKResult.timePoints r) = false.
Proof.
  eexists. split; [vm_compute; reflexivity|]. split; reflexivity.
Qed.

(** ** Fields that are not numbers

    [parseFloat] of an empty field is NaN, and NaN passes both validations:
    [x <= 0] is false for it. *)

(** NaN is absorbing for the four operations and fails every comparison. *)
Ltac by_nan x spec :=
  apply Prim2SF_inj; rewrite spec; change (Prim2SF nan) with S754_nan;
  destruct (Prim2SF x) as [[|]|[|]| |[|] ? ?]; reflexivity.

Lemma div_nan_l (x : float) : nan / x = nan.
Proof. by_nan x FloatAxioms.div_spec. Qed.

Lemma div_nan_r (x : float) : x / nan = nan.
Proof. by_nan x FloatAxioms.div_spec. Qed.

Lemma mul_nan_l (x : float) : nan * x = nan.
Proof. by_nan x mul_spec. Qed.

Lemma mul_nan_r (x : float) : x * nan = nan.
Proof. by_nan x mul_spec. Qed.

Lemma add_nan_l (x : float) : nan + x = nan.
Proof. by_nan x add_spec. Qed.

Lemma add_nan_r (x : float) : x + nan = nan.
Proof. by_nan x add_spec. Qed.

Lemma sub_nan_l (x : float) : nan - x = nan.
Proof. by_nan x sub_spec. Qed.

Lemma sub_nan_r (x : float) : x - nan = nan.
Proof. by_nan x sub_spec. Qed.

Lemma ltb_nan_l (x : float) : (nan <? x) = false.
Proof. rewrite ltb_spec. change (Prim2SF nan) with S754_nan. reflexivity. Qed.

Lemma ltb_nan_r (x : float) : (x <? nan) = false.
Proof.
  rewrite ltb_spec. change (Prim2SF nan) with S754_nan.
  destruct (Prim2SF x) as [[|]|[|]| |[|] ? ?]; reflexivity.
Qed.

Lemma leb_nan_l (x : float) : (nan <=? x) = false.
Proof. rewrite leb_spec. change (Prim2SF nan) with S754_nan. reflexivity. Qed.

Lemma leb_nan_r (x : float) : (x <=? nan) = false.
Proof.
  rewrite leb_spec. change (Prim2SF nan) with S754_nan.
  destruct (Prim2SF x) as [[|]|[|]| |[|] ? ?]; reflexivity.
Qed.

Lemma opp_nan : - nan = nan.
Proof. reflexivity. Qed.

Ltac nan_away :=
  repeat (rewrite ?div_nan_l, ?div_nan_r, ?mul_nan_l, ?mul_nan_r, ?add_nan_l, ?add_nan_r,
            ?sub_nan_l, ?sub_nan_r, ?ltb_nan_l, ?ltb_nan_r, ?leb_nan_l, ?leb_nan_r, ?opp_nan;
          cbn [orb andb]).

Lemma Math_max_nan : JS.Math_max 0 nan = nan.
Proof. reflexivity. Qed.

(** An age that is NaN gives an estimate that is NaN in every branch. *)
Lemma clearance_nan_age (weight : float) (ageUnit : AgeUnit) (creatinine : float) :
  Spec.clearance weight nan ageUnit creatinine = nan.
Proof.
  unfold Spec.clearance. destruct ageUnit; cbn [ageInDays is_months is_years]; nan_away;
    reflexivity.
Qed.

Lemma clearance_nan_creatinine (weight ageValue : float) (ageUnit : AgeUnit) :
  Spec.clearance weight ageValue ageUnit nan = nan.
Proof.
  unfold Spec.clearance.
  destruct ((ageInDays ageValue ageUnit <=? 28) || is_months ageUnit
            || (is_years ageUnit && (ageValue <? 18))); nan_away; reflexivity.
Qed.

Lemma calculateClearance_passes (weight ageValue : float) (ageUnit : AgeUnit)
    (creatinine : float) :
  (weight <=? 0) = false -> (creatinine <=? 0) = false ->
  calculateClearance weight ageValue ageUnit creatinine
  = Return (JS.Math_max 0 (Spec.clearance weight ageValue ageUnit creatinine)).
Proof. intros Hw Hc. unfold calculateClearance. rewrite Hw, Hc. reflexivity. Qed.

(** X1. [calculateClearance] does not reject a field that is not a number:
    with a positive weight and creatinine, an age that is NaN gives the
    clearance NaN; so does a creatinine that is NaN, and a weight that is NaN
    on the adult branch.  The clamp at 0 keeps NaN. *)
Theorem clearance_of_missing_field (weight ageValue : float) (ageUnit : AgeUnit)
    (creatinine : float) :
  (0 <? weight) = true -> (0 <? creatinine) = true ->
  calculateClearance weight nan ageUnit creatinine = Return nan
  /\ calculateClearance weight ageValue ageUnit nan = Return nan
  /\ (pediatric ageValue ageUnit = false ->
      calculateClearance nan ageValue ageUnit creatinine = Return nan).
Proof.
  intros Hw Hc. repeat split.
  - rewrite calculateClearance_passes by now apply positive_passes.
    now rewrite clearance_nan_age.
  - rewrite calculateClearance_passes by (apply leb_nan_l || now apply positive_passes).
    now rewrite clearance_nan_creatinine.
  - intros Hp. rewrite calculateClearance_passes by (apply leb_nan_l || now apply positive_passes).
    unfold Spec.clearance. fold (pediatric ageValue ageUnit). rewrite Hp. now nan_away.
Qed.

(** X2. On the pediatric branch the weight is checked and then not used: two
    positive weights give the same clearance. *)
Theorem pediatric_ignores_weight (w1 w2 ageValue : float) (ageUnit : AgeUnit)
    (creatinine : float) :
  pediatric ageValue ageUnit = true -> (0 <? w1) = true -> (0 <? w2) = true ->
  calculateClearance w1 ageValue ageUnit creatinine
  = calculateClearance w2 ageValue ageUnit creatinine.
Proof.
  intros Hp H1 H2. unfold calculateClearance.
  rewrite (positive_passes _ H1), (positive_passes _ H2), Hp. reflexivity.
Qed.

Section MissingFields.

Variable Math_exp : float -> float.
Variable Number_toString_host : float -> string.
Local Abbreviation simulate := (simulatePK Math_exp Number_toString_host).
Local Abbreviation switch := (pk_switch Math_exp).

(** Without a weight or without a dose the three exposures are NaN. *)
Lemma exposures_nan (a : antibiotic) (dose interval weight crCl : float) :
  continuous a = false -> weight = nan \/ dose = nan ->
  let v := switch a dose interval weight crCl in
  Cmax v = nan /\ Cmin v = nan /\ auc v = nan.
Proof.
  intros Ha [-> | ->]; destruct a; try discriminate Ha; cbn [Cmax Cmin auc pk_switch];
    nan_away; auto.
Qed.

(** Exposures that are NaN pass every threshold. *)
Lemma table_nan (a : antibiotic) (v : locals) (dose interval weight : float) :
  continuous a = false -> Cmax v = nan -> Cmin v = nan -> auc v = nan ->
  table a v dose interval weight = (Spec.Adequada, Spec.keep).
Proof.
  intros Ha HC Hc Ha'. destruct a; try discriminate Ha; cbn [table];
    rewrite ?HC, ?Hc, ?Ha';
    unfold Spec.evaluate_intermittent, Spec.evaluate_aminoglycoside;
    cbn [Spec.peak_range Spec.trough_range]; nan_away; reflexivity.
Qed.

Lemma simulate_nan_exposures (a : antibiotic) (dose interval weight crCl : float)
    (level : option float) (levelType : string) (randomTime : option float) :
  continuous a = false -> (dose <=? 0) = false -> (0 <? interval) = true ->
  (let v := switch a dose interval weight (normalize crCl weight) in
   Cmax v = nan /\ Cmin v = nan /\ auc v = nan) ->
  reaches (simulate a dose interval weight crCl level levelType randomTime) interval adequate.
Proof.
  intros Ha Hd Hi (HC & Hc & Hu). unfold simulatePK. rewrite frame_cases.
  rewrite Hd, (positive_passes _ Hi). cbn [orb].
  destruct (array_fits interval) eqn:Hfit; cbn [bind reaches]; [|auto].
  unfold PK_return. cbn [vars].
  destruct (t1_2 _) eqn:Ht; [|destruct a; discriminate].
  cbn [reaches]. unfold adequate.
  cbn [PKResult.status PKResult.suggestion PKResult.Cmax PKResult.Cmin PKResult.auc status
       suggestion].
  rewrite (table_nan a _ dose interval weight Ha HC Hc Hu), HC, Hc, Hu.
  repeat split; reflexivity.
Qed.

(** X3. [simulatePK] does not reject a weight or a dose that is not a
    number: for the four intermittent antibiotics, with the other inputs
    valid, the call returns with Cmax, Cmin and AUC reading 'NaN', the status
    'Adequada' and no suggestion. *)
Theorem missing_weight_or_dose (a : antibiotic) (dose interval weight crCl : float)
    (level : option float) (levelType : string) (randomTime : option float) :
  continuous a = false -> (0 <? dose) = true -> (0 <? interval) = true ->
  reaches (simulate a dose interval nan crCl level levelType randomTime) interval adequate
  /\ reaches (simulate a nan interval weight crCl level levelType randomTime) interval adequate.
Proof.
  intros Ha Hd Hi. split; apply simulate_nan_exposures; trivial;
    try (now apply positive_passes); try apply leb_nan_l;
    apply exposures_nan; auto.
Qed.

Section ExpOfNaN.

Hypothesis exp_nan : Math_exp nan = nan.

Lemma exposures_nan_clearance (a : antibiotic) (dose interval weight : float) :
  continuous a = false ->
  let v := switch a dose interval weight (normalize nan weight) in
  Cmax v = nan /\ Cmin v = nan /\ auc v = nan.
Proof.
  intros Ha. unfold normalize. nan_away.
  destruct a; try discriminate Ha; cbn [Cmax Cmin auc pk_switch];
    nan_away; rewrite ?exp_nan; nan_away; auto.
Qed.

(** X4. The two calls of the submit handler in a row, on a host whose
    [Math.exp] of NaN is NaN: when the age or the creatinine is not a number
    and the other inputs are valid, the clearance is NaN and [simulatePK], for
    the four intermittent antibiotics, returns with Cmax, Cmin and AUC
    reading 'NaN', the status 'Adequada' and no suggestion. *)
Theorem missing_age_or_creatinine (a : antibiotic)
    (weight ageValue : float) (ageUnit : AgeUnit) (creatinine dose interval : float)
    (level : option float) (levelType : string) (randomTime : option float) :
  continuous a = false ->
  (0 <? weight) = true -> (0 <? creatinine) = true ->
  (0 <? dose) = true -> (0 <? interval) = true ->
  reaches (assess Math_exp Number_toString_host weight nan ageUnit creatinine
                  a dose interval level levelType randomTime) interval adequate
  /\ reaches (assess Math_exp Number_toString_host weight ageValue ageUnit nan
                     a dose interval level levelType randomTime) interval adequate.
Proof.
  intros Ha Hw Hc Hd Hi. unfold assess.
  rewrite !calculateClearance_passes by (apply leb_nan_l || now apply positive_passes).
  rewrite clearance_nan_age, clearance_nan_creatinine, Math_max_nan. cbn [bind].
  split; apply simulate_nan_exposures; trivial; try (now apply positive_passes);
    now apply exposures_nan_clearance.
Qed.

End ExpOfNaN.

End MissingFields.

(** ** The length of the curve *)

(** Doubling a normal number adds one to its exponent, or overflows. *)
Lemma double_normal (x : float) (s : bool) (m : positive) (e : Z) :
  Prim2SF x = S754_finite s m e -> Pos.size m = 53%positive -> (-1074 <= e)%Z ->
  Prim2SF (x * 2)
  = if (e + 1 <=? 971)%Z then S754_finite s m (e + 1) else S754_infinity s.
Proof.
  intros Hx Hm He. rewrite mul_spec, Hx.
  change (Prim2SF 2) with (S754_finite false 4503599627370496 (-51)).
  unfold SF64mul, SFmul. rewrite xorb_false_r.
  rewrite Pos.mul_comm. cbn [Pos.mul].
  unfold binary_round_aux.
  match goal with
  | |- context [shr_fexp prec emax (Zpos ?M) (e + -51) loc_Exact] =>
      assert (shr_fexp prec emax (Zpos M) (e + -51) loc_Exact
              = ({| shr_m := Zpos m; shr_r := false; shr_s := false |}, (e + 1)%Z)) as ->
  end.
  { unfold shr_fexp, Zdigits2. cbn [digits2_pos]. rewrite digits2_size, Hm.
    match goal with
    | |- context [(fexp prec emax ?a - ?b)%Z] =>
        replace (fexp prec emax a - b)%Z with 52%Z
          by (unfold fexp, SpecFloat.emin, prec, emax; cbn [Pos.succ]; lia)
    end.
    cbn [shr iter_pos shr_1 shr_record_of_loc orb]. f_equal. lia. }
  cbn [shr_m loc_of_shr_record round_nearest_even].
  assert (shr_fexp prec emax (Zpos m) (e + 1) loc_Exact
          = ({| shr_m := Zpos m; shr_r := false; shr_s := false |}, (e + 1)%Z)) as ->.
  { unfold shr_fexp, Zdigits2. rewrite digits2_size, Hm.
    replace (fexp prec emax (53 + (e + 1)) - (e + 1))%Z with 0%Z
      by (unfold fexp, SpecFloat.emin, prec, emax; lia).
    reflexivity. }
  cbn [shr_m]. reflexivity.
Qed.

(** From 2^31 hours on the samples do not fit in an array. *)
Lemma long_interval (interval : float) :
  (2147483648 <=? interval) = true -> array_fits interval = false.
Proof.
  rewrite leb_spec. change (Prim2SF 2147483648) with (S754_finite false 4503599627370496 (-21)).
  intros Hle. unfold array_fits. apply Z.leb_gt.
  pose proof (Prim2SF_valid interval) as Hv.
  destruct (Prim2SF interval) as [[|]|[|]| |[|] m e] eqn:Hx;
    cbv [SFleb SFcompare] in Hle; try discriminate.
  - (* +infinity *)
    assert (interval * 2 = infinity) as ->.
    { apply Prim2SF_inj. rewrite mul_spec, Hx. reflexivity. }
    reflexivity.
  - apply valid_finite in Hv. destruct Hv as [Hmax Hv].
    assert (-21 <= e)%Z as He.
    { destruct (Z.le_gt_cases (-21) e) as [H|H]; [exact H|]. exfalso. revert Hle.
      rewrite (proj2 (Z.compare_gt_iff (-21) e)) by lia. discriminate. }
    destruct Hv as [[Hm _] | [He' _]]; [|lia].
    pose proof (size_above m Hm) as Hmb.
    unfold JS.Math_ceil, JS.ToLength.
    pose proof (double_normal interval false m e Hx Hm ltac:(lia)) as Hd.
    destruct (e + 1 <=? 971)%Z eqn:E971.
    + rewrite Hd. destruct (0 <=? e + 1)%Z eqn:E0.
      * rewrite Hd. apply Z.leb_le in E0. unfold JS.int_part.
        replace (0 <=? e + 1)%Z with true by (symmetry; apply Z.leb_le; lia).
        rewrite Z.shiftl_mul_pow2 by lia.
        assert (0 < 2 ^ (e + 1))%Z by (apply Z.pow_pos_nonneg; lia).
        assert (2 ^ 52 * 1 <= Zpos m * 2 ^ (e + 1))%Z by (apply Z.mul_le_mono_nonneg; lia).
        unfold JS.max_safe_integer, JS.max_array_length. lia.
      * apply Z.leb_gt in E0.
        assert (2 ^ 32 <= JS.int_part m (e + 1) < 2 ^ 52)%Z as Hq.
        { unfold JS.int_part. replace (0 <=? e + 1)%Z with false by (symmetry; apply Z.leb_gt; lia).
          rewrite Z.shiftr_div_pow2 by lia.
          assert (2 <= 2 ^ (- (e + 1)) <= 2 ^ 20)%Z as Hd2.
          { split; [change 2%Z with (2 ^ 1)%Z at 1|]; apply Z.pow_le_mono_r; lia. }
          split.
          - apply Z.div_le_lower_bound; [lia|].
            apply Z.le_trans with (2 ^ 20 * 2 ^ 32)%Z; [apply Z.mul_le_mono_nonneg_r; lia | lia].
          - apply Z.div_lt_upper_bound; lia. }
        pose proof (ToLength_of_Z (JS.int_part m (e + 1))) as H1.
        pose proof (ToLength_of_Z (JS.int_part m (e + 1) + 1)) as H2.
        unfold JS.ToLength in H1, H2.
        destruct (JS.frac_part m (e + 1) =? 0)%Z; [rewrite H1 | rewrite H2];
          unfold JS.max_array_length; lia.
    + rewrite Hd. rewrite Hd. unfold JS.max_safe_integer, JS.max_array_length. lia.
Qed.

Lemma long_interval_positive (interval : float) :
  (2147483648 <=? interval) = true -> (interval <=? 0) = false.
Proof.
  rewrite !leb_spec. change (Prim2SF 2147483648) with (S754_finite false 4503599627370496 (-21)).
  change (Prim2SF 0) with (S754_zero false).
  destruct (Prim2SF interval) as [[|]|[|]| |[|] m e]; cbv [SFleb SFcompare]; congruence.
Qed.

Section Curve.

Variable Math_exp : float -> float.
Variable Number_toString_host : float -> string.
Local Abbreviation frame_of := (simulatePK_frame Math_exp Number_toString_host).
Local Abbreviation simulate := (simulatePK Math_exp Number_toString_host).
Local Abbreviation switch := (pk_switch Math_exp).

(** The fields of a result on valid input. *)
Lemma result_fields (a : antibiotic) (dose interval weight crCl : float)
    (level : option float) (levelType : string) (randomTime : option float)
    (P : PKResult.t -> Prop) :
  continuous a = false -> (0 <? dose) = true -> (0 <? interval) = true ->
  (forall r,
      let v := switch a dose interval weight (normalize crCl weight) in
      let mt := measuredTime v interval level levelType randomTime in
      PKResult.timePoints r = push_measured (samples interval) mt mt ->
      PKResult.concentrations r
      = push_measured (map (concentration Math_exp v dose weight) (samples interval)) mt level ->
      PKResult.status r = label (fst (table a v dose interval weight)) ->
      PKResult.suggestion r
      = wording (JS.Number_toString Number_toString_host)
                (snd (table a v dose interval weight)) ->
      P r) ->
  reaches (simulate a dose interval weight crCl level levelType randomTime) interval P.
Proof.
  intros Ha Hd Hi HP. apply simulate_valid; trivial.
  intros f Hf h _. apply frame_returned in Hf. subst f. apply HP; reflexivity.
Qed.

(** X5. [simulatePK] does not reject an interval that is not a number: with
    a positive dose and no measured level the call returns, for the four
    intermittent antibiotics, a curve with no point at all. *)
Theorem missing_interval (a : antibiotic) (dose weight crCl : float)
    (levelType : string) (randomTime : option float) :
  continuous a = false -> (0 <? dose) = true ->
  exists r,
    simulate a dose nan weight crCl None levelType randomTime = Return r
    /\ PKResult.timePoints r = [] /\ PKResult.concentrations r = [].
Proof.
  intros Ha Hd. unfold simulatePK. rewrite frame_cases.
  rewrite (positive_passes _ Hd).
  change (nan <=? 0) with false. change (array_fits nan) with true.
  cbn [orb]. cbv zeta. unfold bind.
  destruct a; try discriminate; (eexists; split; [reflexivity|]); split; reflexivity.
Qed.

(** X6. With a positive dose and an interval of 2^31 hours or more,
    infinity included, [simulatePK] throws the RangeError of an array that is
    too long, for every antibiotic and whatever the other arguments are. *)
Theorem interval_too_long (a : antibiotic) (dose interval weight crCl : float)
    (level : option float) (levelType : string) (randomTime : option float) :
  (0 <? dose) = true -> (2147483648 <=? interval) = true ->
  simulate a dose interval weight crCl level levelType randomTime = Throw RangeError.
Proof.
  intros Hd Hi. unfold simulatePK. rewrite frame_cases.
  rewrite (positive_passes _ Hd), (long_interval_positive _ Hi), (long_interval _ Hi).
  reflexivity.
Qed.

(** X7. On a host with exp(0) = exp(-0) = 1 and exp(NaN) = NaN, every curve
    [simulatePK] returns on valid input starts at time 0 with a
    concentration that is not finite: the formula of the infusion divides by
    1 - exp(0). *)
Theorem curve_starts_infinite (a : antibiotic) (dose interval weight crCl : float)
    (level : option float) (levelType : string) (randomTime : option float) :
  Math_exp 0 = 1 -> Math_exp neg_zero = 1 -> Math_exp nan = nan ->
  continuous a = false -> (0 <? dose) = true -> (0 <? interval) = true ->
  reaches (simulate a dose interval weight crCl level levelType randomTime) interval
    (fun r =>
       exists c, nth_error (PKResult.timePoints r) 0 = Some 0
                 /\ nth_error (PKResult.concentrations r) 0 = Some c
                 /\ is_finite c = false).
Proof.
  intros E0 En Enan Ha Hd Hi. apply result_fields; trivial.
  intros r v mt -> -> _ _.
  pose proof (samples_nonempty interval Hi) as Hne.
  exists (concentration Math_exp v dose weight (sample 0)).
  unfold samples in *. destruct (Z.to_nat _) as [|n]; [contradiction|]. cbn [seq map].
  repeat split.
  - unfold push_measured. destruct mt; reflexivity.
  - unfold push_measured. destruct mt, level; reflexivity.
  - apply sample_at_zero; assumption.
Qed.

Lemma sample_at_infusion (a : antibiotic) (dose interval weight crCl : float) :
  sample (infusion_index a) = infusionTime (switch a dose interval weight crCl).
Proof. destruct a; reflexivity. Qed.

Lemma concentration_at_infusion (a : antibiotic) (dose interval weight crCl : float) :
  continuous a = false ->
  let v := switch a dose interval weight crCl in
  concentration Math_exp v dose weight (infusionTime v) = Cmax v.
Proof.
  intros Ha. destruct a; try discriminate Ha; unfold concentration;
    cbn [infusionTime pk_switch Vd Ke Cmax];
    match goal with |- (if ?b then _ else _) = _ => change b with true end; reflexivity.
Qed.

(** X8. On valid input, when the curve is long enough to hold the sample at
    the end of the infusion (index 2 for intermittent vancomycin, 1 for the
    aminoglycosides), that sample is at [infusionTime] and its concentration
    is exactly the local [Cmax]: the infusion formula at the end of the
    infusion is the expression [Cmax] was computed with. *)
Theorem peak_on_the_curve (a : antibiotic) (dose interval weight crCl : float)
    (level : option float) (levelType : string) (randomTime : option float) :
  continuous a = false -> (0 <? dose) = true -> (0 <? interval) = true ->
  (infusion_index a <? List.length (samples interval))%nat = true ->
  reaches (simulate a dose interval weight crCl level levelType randomTime) interval
    (fun r =>
       let v := switch a dose interval weight (normalize crCl weight) in
       nth_error (PKResult.timePoints r) (infusion_index a) = Some (infusionTime v)
       /\ nth_error (PKResult.concentrations r) (infusion_index a) = Some (Cmax v)).
Proof.
  intros Ha Hd Hi Hk. apply Nat.ltb_lt in Hk. apply result_fields; trivial.
  intros r v mt -> -> _ _. cbv zeta. fold v.
  assert (forall A (xs : list A) (x : option A) k, (k < List.length xs)%nat ->
            nth_error (push_measured xs mt x) k = nth_error xs k) as Hpush.
  { intros A xs x k Hlt. unfold push_measured. destruct mt, x; try reflexivity.
    now apply nth_error_app1. }
  rewrite !Hpush by (rewrite ?length_map; assumption).
  rewrite nth_error_map, (samples_nth interval _ Hk). fold (sample (infusion_index a)).
  subst v. rewrite (sample_at_infusion a dose interval weight (normalize crCl weight)).
  split; [reflexivity|]. cbn [option_map]. f_equal. now apply concentration_at_infusion.
Qed.

(** X9. For vancomycin_continuous the body of [simulatePK] does not use the
    interval beyond validating it and sampling the curve: two calls that
    differ only in their positive intervals reach the [return] statement with
    the same locals, the same status and the same suggestion. *)
Theorem continuous_ignores_interval (dose weight crCl i1 i2 : float)
    (level : option float) (levelType : string) (randomTime : option float) :
  (0 <? dose) = true -> (0 <? i1) = true -> (0 <? i2) = true ->
  reaches (frame_of vancomycin_continuous dose i1 weight crCl level levelType randomTime) i1
    (fun f1 =>
       reaches (frame_of vancomycin_continuous dose i2 weight crCl level levelType randomTime) i2
         (fun f2 => vars f1 = vars f2 /\ status f1 = status f2
                    /\ suggestion f1 = suggestion f2)).
Proof.
  intros Hd H1 H2. apply frame_valid; trivial. apply frame_valid; trivial.
  repeat split; reflexivity.
Qed.

End Curve.

(** ** The chart *)

Lemma reference_lines_returns (a : antibiotic) :
  exists lines, reference_lines a = Return lines.
Proof. destruct a; eexists; reflexivity. Qed.

Lemma renderChart_creates (chart : option Chart.t) (timePoints concentrations : list float)
    (a : antibiotic) (level : option float) (levelType : string) (randomTime : option float)
    (infusionTime : float) :
  exists c,
    renderChart chart timePoints concentrations a level levelType randomTime infusionTime
    = (match chart with Some old => [destroyed old] | None => [] end ++ [created c],
       Some c, Return tt).
Proof.
  unfold renderChart. destruct (reference_lines_returns a) as [lines ->].
  eexists. reflexivity.
Qed.

Lemma alive_app (es1 es2 : list chart_event) : alive (es1 ++ es2) = (alive es1 + alive es2)%Z.
Proof.
  induction es1 as [|[c|c] es1 IH]; cbn [alive app]; rewrite ?IH; lia.
Qed.

Lemma renderings_alive (calls : list rendering) (chart : option Chart.t) :
  let '(events, final) := renderings chart calls in
  (held chart + alive events = held final)%Z
  /\ forall before after, events = before ++ after ->
                          (0 <= held chart + alive before <= 1)%Z.
Proof.
  revert chart. induction calls as [|r calls IH]; intros chart.
  - cbn. split; [lia|]. intros before after H.
    symmetry in H. apply app_eq_nil in H as [-> _]. destruct chart; cbn; lia.
  - cbn [renderings].
    destruct (renderChart_creates chart (r_timePoints r) (r_concentrations r) (r_antibiotic r)
                (r_level r) (r_levelType r) (r_randomTime r) (r_infusionTime r)) as [c ->].
    specialize (IH (Some c)). destruct (renderings (Some c) calls) as [later final].
    destruct IH as [IHend IHpre]. split.
    + rewrite !alive_app. destruct chart; cbn [alive held] in *; lia.
    + intros before after H.
      destruct chart as [old|]; cbn [app] in H.
      * destruct before as [|e1 before]; [cbn; lia|]. injection H as <- H.
        destruct before as [|e2 before]; [cbn; lia|]. injection H as <- H.
        specialize (IHpre before after H). cbn [alive held] in *. lia.
      * destruct before as [|e1 before]; [cbn; lia|]. injection H as <- H.
        specialize (IHpre before after H). cbn [alive held] in *. lia.
Qed.

(** X10. Whatever the arguments of a sequence of calls of [renderChart],
    starting with no chart: every call completes, the chart held before it is
    destroyed before the new one is created, so that at every moment at most
    one chart is alive, and after the last call exactly one is, the one the
    script holds. *)
Theorem one_chart_at_a_time (calls : list rendering) :
  let '(events, final) := renderings None calls in
  (alive events = match calls with [] => 0 | _ :: _ => 1 end)%Z
  /\ (calls <> [] -> exists c, final = Some c)
  /\ forall before after, events = before ++ after -> (0 <= alive before <= 1)%Z.
Proof.
  pose proof (renderings_alive calls None) as H.
  destruct (renderings None calls) as [events final] eqn:E.
  destruct H as [Hend Hpre]. cbn [held] in *.
  assert (calls <> [] -> exists c, final = Some c) as Hlast.
  { clear Hend Hpre. revert events final E. generalize (@None Chart.t) as chart.
    induction calls as [|r calls IH]; intros chart events final E Hne; [contradiction|].
    cbn [renderings] in E.
    destruct (renderChart_creates chart (r_timePoints r) (r_concentrations r) (r_antibiotic r)
                (r_level r) (r_levelType r) (r_randomTime r) (r_infusionTime r)) as [c Hc].
    rewrite Hc in E. destruct (renderings (Some c) calls) as [later fin] eqn:El.
    injection E as <- <-.
    destruct calls as [|r' calls].
    - cbn in El. injection El as <- <-. eauto.
    - exact (IH (Some c) later fin El ltac:(discriminate)). }
  split; [|split; [exact Hlast | exact Hpre]].
  destruct calls; [cbn in E; injection E as <- _; reflexivity|].
  destruct (Hlast ltac:(discriminate)) as (c & ->). cbn [held] in Hend. lia.
Qed.

Lemma map_index_zip (timePoints concentrations : list float) (i : nat) :
  List.length timePoints = (i + List.length concentrations)%nat ->
  map_index (fun c j => {| Chart.x := at_index timePoints j; Chart.y := c |}) i concentrations
  = map curve_point (combine (skipn i timePoints) concentrations).
Proof.
  revert i. induction concentrations as [|c cs IH]; intros i Hlen.
  - cbn. now rewrite combine_nil.
  - cbn [map_index List.length] in *.
    destruct (skipn i timePoints) as [|t rest] eqn:Hs.
    + apply (f_equal (@List.length float)) in Hs. rewrite length_skipn in Hs. cbn in Hs. lia.
    + assert (nth_error timePoints i = Some t) as Hn.
      { rewrite <- (firstn_skipn i timePoints) at 1. rewrite Hs.
        rewrite nth_error_app2 by (rewrite length_firstn; lia).
        rewrite length_firstn. replace (i - Nat.min i (List.length timePoints))%nat with 0%nat by lia.
        reflexivity. }
      assert (skipn (S i) timePoints = rest) as Hr.
      { replace (S i) with (1 + i)%nat by lia. rewrite <- skipn_skipn, Hs. reflexivity. }
      cbn [combine map]. unfold at_index at 1. rewrite Hn.
      rewrite IH by lia. rewrite Hr. reflexivity.
Qed.

Lemma combine_snoc {A B : Type} (xs : list A) (ys : list B) (x : A) (y : B) :
  List.length xs = List.length ys ->
  combine (xs ++ [x]) (ys ++ [y]) = combine xs ys ++ [(x, y)].
Proof.
  revert ys. induction xs as [|a xs IH]; intros [|b ys] H; try discriminate; cbn.
  - reflexivity.
  - f_equal. apply IH. now injection H.
Qed.

Lemma at_index_last (xs : list float) (t : float) :
  at_index (xs ++ [t]) (List.length (xs ++ [t]) - 1) = at_time t.
Proof.
  unfold at_index. rewrite length_app. cbn [List.length].
  rewrite nth_error_app2 by lia.
  replace (List.length xs + 1 - 1 - List.length xs)%nat with 0%nat by lia. reflexivity.
Qed.

Lemma handler_infusionTime_engine (a : antibiotic) : handler_infusionTime a = Spec.infusion a.
Proof. destruct a; reflexivity. Qed.

Section Drawing.

Variable Math_exp : float -> float.
Variable Number_toString_host : float -> string.
Local Abbreviation simulate := (simulatePK Math_exp Number_toString_host).
Local Abbreviation switch := (pk_switch Math_exp).
Local Abbreviation result_of := (result_fields Math_exp Number_toString_host).

(** X11. [renderChart] on the two arrays of a result of [simulatePK] (valid
    input, intermittent antibiotic): the line has one point for every
    concentration, the k-th point pairing the k-th time with the k-th
    concentration; no point has an x that is [undefined]. *)
Theorem curve_points (a : antibiotic) (dose interval weight crCl : float)
    (level : option float) (levelType : string) (randomTime : option float)
    (chart : option Chart.t) (infusionTime : float) :
  continuous a = false -> (0 <? dose) = true -> (0 <? interval) = true ->
  reaches (simulate a dose interval weight crCl level levelType randomTime) interval
    (fun r =>
       exists c,
         snd (fst (renderChart chart (PKResult.timePoints r) (PKResult.concentrations r) a
                               level levelType randomTime infusionTime)) = Some c
         /\ Chart.data c
            = map curve_point (combine (PKResult.timePoints r) (PKResult.concentrations r))
         /\ List.length (Chart.data c) = List.length (PKResult.concentrations r)).
Proof.
  intros Ha Hd Hi. apply result_of; trivial. intros r v mt Ht Hc _ _.
  assert (List.length (PKResult.timePoints r) = List.length (PKResult.concentrations r)) as Hlen.
  { rewrite Ht, Hc. subst mt. destruct level as [l|].
    - rewrite push_point, push_time, !length_app, length_map.
      destruct (measuredTime _ _ _ _ _); reflexivity.
    - unfold measuredTime. cbn [supplied push_measured]. now rewrite length_map. }
  unfold renderChart. destruct (reference_lines_returns a) as [lines ->].
  cbn [fst snd]. eexists. split; [reflexivity|]. cbn [Chart.data].
  rewrite (map_index_zip _ _ 0) by exact Hlen. cbn [skipn]. split; [reflexivity|].
  rewrite length_map, length_combine, Hlen. apply Nat.min_id.
Qed.

(** X12. When [simulatePK] appends the measured level to its curve (a
    positive level of type peak, trough, or random with a time that is not
    negative), [renderChart], called as the submit handler calls it, draws
    the marker of the measured level at that very point: the same time, the
    same level, and it is the last point of the line. *)
Theorem marker_is_overlay (a : antibiotic) (dose interval weight crCl l t : float)
    (levelType : string) (randomTime : option float) (chart : option Chart.t) :
  continuous a = false -> (0 <? dose) = true -> (0 <? interval) = true ->
  (0 <? l) = true ->
  overlay_time a interval levelType randomTime = Some t ->
  reaches (simulate a dose interval weight crCl (Some l) levelType randomTime) interval
    (fun r =>
       exists c,
         snd (fst (renderChart chart (PKResult.timePoints r) (PKResult.concentrations r) a
                               (Some l) levelType randomTime (handler_infusionTime a))) = Some c
         /\ Chart.measured c = Some {| Chart.x := at_time t; Chart.y := l |}
         /\ last (Chart.data c) {| Chart.x := at_undefined; Chart.y := 0 |}
            = {| Chart.x := at_time t; Chart.y := l |}).
Proof.
  intros Ha Hd Hi Hl Ht. apply result_of; trivial. intros r v mt Htp Hcs _ _.
  assert (negb (String.eqb levelType "") = true) as Hne
    by (destruct levelType; [discriminate Ht | reflexivity]).
  assert (mt = Some t) as Hmt.
  { subst mt v. rewrite measuredTime_overlay by assumption. exact Ht. }
  rewrite Hmt in Htp, Hcs. cbn [push_measured] in Htp, Hcs.
  unfold renderChart. destruct (reference_lines_returns a) as [lines ->].
  cbn [fst snd]. eexists. split; [reflexivity|]. cbn [Chart.data Chart.measured].
  split.
  - unfold marked. rewrite (positive_truthy _ Hl). cbn [andb].
    assert (negb (String.eqb levelType "random")
            || String.eqb levelType "random" && non_negative randomTime = true) as ->.
    { unfold overlay_time in Ht.
      destruct (String.eqb levelType "peak") eqn:Ep;
        [apply String.eqb_eq in Ep; subst; reflexivity|].
      destruct (String.eqb levelType "trough") eqn:Et;
        [apply String.eqb_eq in Et; subst; reflexivity|].
      destruct (String.eqb levelType "random"); [|discriminate].
      destruct randomTime as [r0|]; [|discriminate]. cbn.
      destruct (0 <=? r0); [reflexivity | discriminate]. }
    do 2 f_equal. unfold marker_time, overlay_time in *.
    destruct (String.eqb levelType "peak").
    + injection Ht as <-. now rewrite handler_infusionTime_engine.
    + destruct (String.eqb levelType "trough").
      * injection Ht as <-. rewrite Htp. apply at_index_last.
      * destruct (String.eqb levelType "random"); [|discriminate].
        destruct randomTime as [r0|]; [|discriminate].
        destruct (0 <=? r0); [injection Ht as <-; reflexivity | discriminate].
  - rewrite Htp, Hcs.
    rewrite (map_index_zip _ _ 0) by (rewrite !length_app, length_map; reflexivity).
    cbn [skipn]. rewrite combine_snoc by now rewrite length_map.
    rewrite map_app. cbn [map]. apply last_last.
Qed.

(** X13. The two functions disagree on a random level without a time.  The
    handler passes [parseFloat(...) || null], so an empty field and a time
    of 0 both arrive as [null]: [simulatePK] then appends nothing to the
    curve, while [renderChart], for which [null >= 0] holds, draws the marker
    of the measured level, with [null] for its time. *)
Theorem marker_without_overlay (a : antibiotic) (dose interval weight crCl l field : float)
    (chart : option Chart.t) :
  continuous a = false -> (0 <? dose) = true -> (0 <? interval) = true ->
  (0 <? l) = true -> JS.truthy field = false ->
  reaches (simulate a dose interval weight crCl (Some l) "random" (or_null field)) interval
    (fun r =>
       PKResult.timePoints r = samples interval
       /\ exists c,
            snd (fst (renderChart chart (PKResult.timePoints r) (PKResult.concentrations r) a
                                  (Some l) "random" (or_null field) (handler_infusionTime a)))
            = Some c
            /\ Chart.measured c = Some {| Chart.x := at_null; Chart.y := l |}).
Proof.
  intros Ha Hd Hi Hl Hf. unfold or_null. rewrite Hf.
  apply result_of; trivial. intros r v mt Htp Hcs _ _.
  assert (mt = None) as Hmt.
  { subst mt. unfold measuredTime, supplied. rewrite (positive_truthy _ Hl). reflexivity. }
  rewrite Hmt in Htp. cbn [push_measured] in Htp. split; [exact Htp|].
  unfold renderChart. destruct (reference_lines_returns a) as [lines ->].
  cbn [fst snd]. eexists. split; [reflexivity|]. cbn [Chart.measured].
  unfold marked. rewrite (positive_truthy _ Hl). reflexivity.
Qed.

(** X14. For an aminoglycoside the four reference lines of the chart are the
    thresholds of the evaluation: on valid input the status of [simulatePK]
    is 'Insuficiente' when Cmax is under the lower peak line or Cmin under
    the lower trough line, otherwise 'Excessiva' when Cmax is over the upper
    peak line or Cmin over the upper trough line, otherwise 'Adequada'. *)
Theorem verdict_between_the_lines (a : antibiotic) (dose interval weight crCl : float)
    (level : option float) (levelType : string) (randomTime : option float) :
  aminoglycoside a = true -> (0 <? dose) = true -> (0 <? interval) = true ->
  exists peakMin peakMax troughMin troughMax,
    reference_lines a = Return [peakMin; peakMax; troughMin; troughMax]
    /\ reaches (simulate a dose interval weight crCl level levelType randomTime) interval
         (fun r =>
            let v := switch a dose interval weight (normalize crCl weight) in
            PKResult.status r
            = if (Cmax v <? Chart.yMin peakMin) || (Cmin v <? Chart.yMin troughMin)
              then "Insuficiente"%string
              else if (Chart.yMax peakMax <? Cmax v) || (Chart.yMax troughMax <? Cmin v)
                   then "Excessiva"%string
                   else "Adequada"%string).
Proof.
  intros Ha Hd Hi.
  assert (continuous a = false) as Hc by (destruct a; try discriminate; reflexivity).
  destruct a; try discriminate;
    (do 4 eexists; split; [reflexivity|]);
    (apply result_of; trivial; intros r v mt _ _ -> _);
    unfold table, Spec.evaluate_aminoglycoside, Spec.peak_range, Spec.trough_range;
    cbn [Chart.horizontal Chart.yMin Chart.yMax fst snd therapeuticRanges peak trough];
    subst v; set (v := switch _ _ _ _ _);
    destruct (Cmax v <? _), (Cmin v <? _); cbn [orb]; try reflexivity;
    destruct (_ <? Cmax v), (_ <? Cmin v); reflexivity.
Qed.

(** X19. For intermittent vancomycin the status follows the AUC against the
    AUC range of [therapeuticRanges] and Cmin against the two trough lines of
    the chart; Cmax and the two peak lines the chart draws play no part in
    it. *)
Theorem vancomycin_verdict_ignores_peak (dose interval weight crCl : float)
    (level : option float) (levelType : string) (randomTime : option float) :
  (0 <? dose) = true -> (0 <? interval) = true ->
  exists peakMin peakMax troughMin troughMax low high,
    reference_lines vancomycin_intermittent
    = Return [peakMin; peakMax; troughMin; troughMax]
    /\ auc_range (therapeuticRanges vancomycin_intermittent) = Some (low, high)
    /\ reaches (simulate vancomycin_intermittent dose interval weight crCl
                         level levelType randomTime) interval
         (fun r =>
            let v := switch vancomycin_intermittent dose interval weight
                            (normalize crCl weight) in
            PKResult.status r
            = if (auc v <? low) || (Cmin v <? Chart.yMin troughMin)
              then "Insuficiente"%string
              else if (high <? auc v) || (Chart.yMax troughMax <? Cmin v)
                   then "Excessiva"%string
                   else "Adequada"%string).
Proof.
  intros Hd Hi. do 6 eexists. split; [reflexivity|]. split; [reflexivity|].
  apply result_of; trivial. intros r v mt _ _ -> _.
  unfold table, Spec.evaluate_intermittent.
  cbn [Chart.horizontal Chart.yMin Chart.yMax fst snd therapeuticRanges peak trough].
  subst v; set (v := switch _ _ _ _ _).
  destruct (auc v <? _), (Cmin v <? _); cbn [orb]; try reflexivity;
    destruct (_ <? auc v), (_ <? Cmin v); reflexivity.
Qed.

End Drawing.

(** ** The report *)

Section Reporting.

Variable Math_exp : float -> float.
Variable Number_toString_host : float -> string.
Local Abbreviation simulate := (simulatePK Math_exp Number_toString_host).
Local Abbreviation report := (generatePDF Number_toString_host).
Local Abbreviation str := (JS.Number_toString Number_toString_host).

(** X15. The report of a result of [simulatePK] (valid input, intermittent
    antibiotic): the status line never falls back to 'N/A', the status being
    never empty, and the suggestion line reads 'Sugestão: N/A' exactly when
    the status is 'Adequada'. *)
Theorem report_status (a : antibiotic) (dose interval weight crCl : float)
    (level : option float) (levelType : string) (randomTime : option float)
    (patient : Patient.t) (chartImg : string) :
  continuous a = false -> (0 <? dose) = true -> (0 <? interval) = true ->
  reaches (simulate a dose interval weight crCl level levelType randomTime) interval
    (fun data =>
       text_at 10 110 (report data patient chartImg)
       = Some ("Status: " ++ PKResult.status data)%string
       /\ PKResult.status data <> ""%string
       /\ (text_at 10 120 (report data patient chartImg) = Some "Sugestão: N/A"%string
           <-> PKResult.status data = "Adequada"%string)).
Proof.
  intros Ha Hd Hi. apply result_fields; trivial.
  intros data v mt _ _ Hs Hw.
  cbn [generatePDF text_at Z.eqb Pos.eqb andb]. rewrite Hs, Hw.
  set (tb := table a v dose interval weight).
  assert (label (fst tb) <> ""%string) as Hl by (destruct (fst tb); discriminate).
  split; [|split; [exact Hl|]].
  - destruct (label (fst tb)); [contradiction | reflexivity].
  - rewrite label_adequate. subst tb. rewrite <- table_keep.
    set (s := snd _). split.
    + intros H. destruct s; try reflexivity; discriminate H.
    + intros ->. reflexivity.
Qed.

Lemma number_or_NA_checked (x : float) :
  (x <=? 0) = false ->
  number_or_NA Number_toString_host x = if is_nan x then "N/A"%string else str x.
Proof.
  intros Hx. unfold number_or_NA.
  assert (is_nan x = true \/ (0 <? x) = true) as [Hn | Hp].
  { revert Hx. unfold is_nan. rewrite leb_spec, ltb_spec, eqb_spec.
    change (Prim2SF 0) with (S754_zero false).
    destruct (Prim2SF x) as [[|]|[|]| |[|] m e]; cbv; auto; congruence. }
  - rewrite Hn. unfold JS.truthy. rewrite Hn, orb_true_r. reflexivity.
  - rewrite (positive_truthy _ Hp).
    assert (is_nan x = false) as ->; [|reflexivity].
    revert Hp. unfold is_nan. rewrite ltb_spec, eqb_spec.
    change (Prim2SF 0) with (S754_zero false).
    destruct (Prim2SF x) as [[|]|[|]| |[|] m e]; cbv -[Pos.compare Z.compare]; try congruence.
    intros _. rewrite Z.compare_refl, Pos.compare_refl. reflexivity.
Qed.

(** X16. In the report of a patient the two calls of the handler accepted,
    'N/A' for the weight, the creatinine, the dose or the interval stands for
    a field that was not a number, and for nothing else: a zero, which
    [x || 'N/A'] would also replace, was rejected by the validations before
    any report could be made. *)
Theorem report_not_available (patient : Patient.t) (data : PKResult.t) (chartImg : string) :
  assess Math_exp Number_toString_host
         (Patient.weight patient) (Patient.ageValue patient) (Patient.ageUnit patient)
         (Patient.creatinine patient) (Patient.antibiotic patient) (Patient.dose patient)
         (Patient.interval patient) (Patient.level patient) (Patient.levelType patient)
         (Patient.randomTime patient) = Return data ->
  let shown x := if is_nan x then "N/A"%string else str x in
  text_at 10 50 (report data patient chartImg)
  = Some ("Peso: " ++ shown (Patient.weight patient) ++ " kg")%string
  /\ text_at 10 70 (report data patient chartImg)
     = Some ("Creatinina: " ++ shown (Patient.creatinine patient) ++ " mg/dL")%string
  /\ text_at 10 90 (report data patient chartImg)
     = Some ("Dose: " ++ shown (Patient.dose patient) ++ " mg ("
             ++ JS.toFixed2 Number_toString_host (Patient.dose patient / Patient.weight patient)
             ++ " mg/kg), Intervalo: " ++ shown (Patient.interval patient) ++ " h")%string.
Proof.
  unfold assess, calculateClearance, simulatePK. intros H.
  destruct (Patient.weight patient <=? 0) eqn:Hw; [discriminate H|].
  destruct (Patient.creatinine patient <=? 0) eqn:Hc; [discriminate H|].
  cbn [orb bind] in H. rewrite frame_cases in H.
  destruct (Patient.dose patient <=? 0) eqn:Hd; [discriminate H|].
  destruct (Patient.interval patient <=? 0) eqn:Hi; [discriminate H|].
  clear H. cbv zeta. cbn [generatePDF text_at Z.eqb Pos.eqb andb].
  rewrite !number_or_NA_checked by assumption. repeat split.
Qed.

End Reporting.

(** ** The submit handler *)

Section Submitting.

Variable Math_exp : float -> float.
Variable Number_toString_host : float -> string.
Variable parseFloat : string -> float.
Variable host_message : thrown -> string.
Variable global_object : string -> bool.
Variable host_Float : string -> completion float.
Local Abbreviation handler :=
  (submit Math_exp Number_toString_host parseFloat host_message global_object host_Float).
Local Abbreviation statements := (present Math_exp Number_toString_host).

(** X17. The statements of the [try] block after the object literal show
    everything or nothing.  Either one of the two calls of the engine throws
    and the page is as it was; or both return, [renderChart] completes, and
    the page shows the three lines of the result, reveals the results, holds
    the new chart, the old one destroyed, and the report button is bound to
    this result and this patient. *)
Theorem present_all_or_nothing (patient : Patient.t) (p : page) :
  (exists e, statements patient p = (p, abrupt (of_engine e)))
  \/ (exists data c,
        assess Math_exp Number_toString_host
          (Patient.weight patient) (Patient.ageValue patient) (Patient.ageUnit patient)
          (Patient.creatinine patient) (Patient.antibiotic patient) (Patient.dose patient)
          (Patient.interval patient) (Patient.level patient) (Patient.levelType patient)
          (Patient.randomTime patient) = Return data
        /\ statements patient p
           = ({| doseStatus := "Status: " ++ PKResult.status data;
                 doseSuggestion := "Sugestão: " ++ PKResult.suggestion data;
                 pkParameters := parameters_line data;
                 results_hidden := false;
                 chart := Some c;
                 chart_events :=
                   chart_events p
                   ++ match chart p with Some old => [destroyed old] | None => [] end
                   ++ [created c];
                 generatePdf_onclick := Some (data, patient);
                 alerts := alerts p |}, normal tt)).
Proof.
  unfold assess, present.
  destruct (calculateClearance _ _ _ _) as [crCl|e]; [|left; eauto].
  cbn [bind].
  destruct (simulatePK _ _ _ _ _ _ _ _ _ _) as [data|e]; [|left; eauto].
  right. unfold renderChart.
  destruct (reference_lines_returns (Patient.antibiotic patient)) as [lines ->].
  do 2 eexists. split; reflexivity.
Qed.

(** The first submission: the identifier of the initializer is none of the
    names the handler or the script binds. *)
Lemma submit_unbound (f : Form.t) (p : page) :
  global_object callee = false ->
  handler f p = alert ("Erro: " ++ host_message (ReferenceError callee)) p.
Proof.
  intros Hg. unfold submit, read_patient, ageValue_initializer.
  change (binds block_bindings callee) with false.
  change (binds (handler_parameters ++ script_bindings) callee) with false.
  rewrite Hg. reflexivity.
Qed.

(** X18. On a page whose global object does not bind the identifier of the
    initializer of [ageValue] ([parseFloat] followed by U+0A28), no
    submission gets past the patient literal: after any number of
    submissions, whatever the forms hold, the page has one more alert per
    submission, each 'Erro: ' followed by the host's message for that
    ReferenceError, and its result lines, the visibility of the results, the
    chart, the charts ever created or destroyed and the handler of the report
    button are as before the first one. *)
Theorem submissions_only_alert (forms : list Form.t) (p : page) :
  global_object callee = false ->
  let p' := submissions Math_exp Number_toString_host parseFloat host_message
                        global_object host_Float forms p in
  alerts p'
  = alerts p ++ repeat ("Erro: " ++ host_message (ReferenceError callee))%string
                       (List.length forms)
  /\ doseStatus p' = doseStatus p
  /\ doseSuggestion p' = doseSuggestion p
  /\ pkParameters p' = pkParameters p
  /\ results_hidden p' = results_hidden p
  /\ chart p' = chart p
  /\ chart_events p' = chart_events p
  /\ generatePdf_onclick p' = generatePdf_onclick p.
Proof.
  intros Hg. cbv zeta. unfold submissions. revert p.
  induction forms as [|f forms IH]; intros p.
  - cbn. rewrite app_nil_r. repeat split.
  - cbn [fold_left List.length repeat]. rewrite (submit_unbound f p Hg).
    destruct (IH (alert ("Erro: " ++ host_message (ReferenceError callee)) p))
      as (Ha & Hs & Hg' & Hk & Hr & Hc & He & Ho).
    rewrite Ha, Hs, Hg', Hk, Hr, Hc, He, Ho. cbn [alert alerts doseStatus doseSuggestion
      pkParameters results_hidden chart chart_events generatePdf_onclick].
    rewrite <- app_assoc. repeat split.
Qed.

End Submitting.

(** ** The further statements at concrete inputs *)

Lemma clearance_of_missing_field_witness :
  (0 <? 70) = true /\ (0 <? 1) = true
  /\ calculateClearance 70 nan years 1 = Return nan
  /\ calculateClearance 70 40 years nan = Return nan
  /\ (pediatric 40 years = false -> calculateClearance nan 40 years 1 = Return nan).
Proof.
  do 2 (split; [reflexivity|]).
  exact (clearance_of_missing_field 70 40 years 1 eq_refl eq_refl).
Defined.

Lemma pediatric_ignores_weight_witness :
  pediatric 5 years = true /\ (0 <? 18) = true /\ (0 <? 25) = true
  /\ calculateClearance 18 5 years 0.5 = calculateClearance 25 5 years 0.5.
Proof.
  do 3 (split; [reflexivity|]).
  exact (pediatric_ignores_weight 18 25 5 years 0.5 eq_refl eq_refl eq_refl).
Defined.

Lemma missing_weight_or_dose_witness :
  continuous gentamicin = false /\ (0 <? 420) = true /\ (0 <? 8) = true
  /\ reaches (simulatePK exp_ref digits_ref gentamicin 420 8 nan 97.22222222222223
                         None EmptyString None) 8 adequate
  /\ reaches (simulatePK exp_ref digits_ref gentamicin nan 8 70 97.22222222222223
                         None EmptyString None) 8 adequate.
Proof.
  do 3 (split; [reflexivity|]).
  exact (missing_weight_or_dose exp_ref digits_ref gentamicin 420 8 70 97.22222222222223
           None EmptyString None eq_refl eq_refl eq_refl).
Defined.

Lemma missing_age_or_creatinine_witness :
  exp_ref nan = nan
  /\ continuous gentamicin = false
  /\ (0 <? 70) = true /\ (0 <? 1) = true /\ (0 <? 420) = true /\ (0 <? 8) = true
  /\ reaches (assess exp_ref digits_ref 70 nan years 1 gentamicin 420 8
                     None EmptyString None) 8 adequate
  /\ reaches (assess exp_ref digits_ref 70 40 years nan gentamicin 420 8
                     None EmptyString None) 8 adequate.
Proof.
  do 6 (split; [reflexivity|]).
  exact (missing_age_or_creatinine exp_ref digits_ref eq_refl gentamicin 70 40 years 1 420 8
           None EmptyString None eq_refl eq_refl eq_refl eq_refl eq_refl).
Defined.

Lemma missing_interval_witness :
  continuous gentamicin = false /\ (0 <? 420) = true
  /\ exists r,
       simulatePK exp_ref digits_ref gentamicin 420 nan 70 97.22222222222223
                  None EmptyString None = Return r
       /\ PKResult.timePoints r = [] /\ PKResult.concentrations r = [].
Proof.
  do 2 (split; [reflexivity|]).
  exact (missing_interval exp_ref digits_ref gentamicin 420 70 97.22222222222223
           EmptyString None eq_refl eq_refl).
Defined.

Lemma interval_too_long_witness :
  (0 <? 420) = true /\ (2147483648 <=? 2147483648) = true
  /\ simulatePK exp_ref digits_ref gentamicin 420 2147483648 70 97.22222222222223
                None EmptyString None = Throw RangeError.
Proof.
  do 2 (split; [reflexivity|]).
  exact (interval_too_long exp_ref digits_ref gentamicin 420 2147483648 70 97.22222222222223
           None EmptyString None eq_refl eq_refl).
Defined.

Lemma curve_starts_infinite_witness :
  exp_ref 0 = 1 /\ exp_ref neg_zero = 1 /\ exp_ref nan = nan
  /\ continuous gentamicin = false /\ (0 <? 420) = true /\ (0 <? 8) = true
  /\ reaches (simulatePK exp_ref digits_ref gentamicin 420 8 70 97.22222222222223
                         None EmptyString None) 8
       (fun r =>
          exists c, nth_error (PKResult.timePoints r) 0 = Some 0
                    /\ nth_error (PKResult.concentrations r) 0 = Some c
                    /\ is_finite c = false).
Proof.
  do 6 (split; [reflexivity|]).
  exact (curve_starts_infinite exp_ref digits_ref gentamicin 420 8 70 97.22222222222223
           None EmptyString None eq_refl eq_refl eq_refl eq_refl eq_refl eq_refl).
Defined.

Lemma peak_on_the_curve_witness :
  continuous gentamicin = false /\ (0 <? 420) = true /\ (0 <? 8) = true
  /\ (infusion_index gentamicin <? List.length (samples 8))%nat = true
  /\ reaches (simulatePK exp_ref digits_ref gentamicin 420 8 70 97.22222222222223
                         None EmptyString None) 8
       (fun r =>
          let v := pk_switch exp_ref gentamicin 420 8 70 (normalize 97.22222222222223 70) in
          nth_error (PKResult.timePoints r) (infusion_index gentamicin)
          = Some (infusionTime v)
          /\ nth_error (PKResult.concentrations r) (infusion_index gentamicin)
             = Some (Cmax v)).
Proof.
  do 4 (split; [reflexivity|]).
  exact (peak_on_the_curve exp_ref digits_ref gentamicin 420 8 70 97.22222222222223
           None EmptyString None eq_refl eq_refl eq_refl eq_refl).
Defined.

Lemma continuous_ignores_interval_witness :
  (0 <? 2000) = true /\ (0 <? 24) = true /\ (0 <? 12) = true
  /\ reaches (simulatePK_frame exp_ref digits_ref vancomycin_continuous 2000 24 70
                               97.22222222222223 None EmptyString None) 24
       (fun f1 =>
          reaches (simulatePK_frame exp_ref digits_ref vancomycin_continuous 2000 12 70
                                    97.22222222222223 None EmptyString None) 12
            (fun f2 => vars f1 = vars f2 /\ status f1 = status f2
                       /\ suggestion f1 = suggestion f2)).
Proof.
  do 3 (split; [reflexivity|]).
  exact (continuous_ignores_interval exp_ref digits_ref 2000 70 97.22222222222223 24 12
           None EmptyString None eq_refl eq_refl eq_refl).
Defined.

Lemma curve_points_witness :
  continuous gentamicin = false /\ (0 <? 420) = true /\ (0 <? 8) = true
  /\ reaches (simulatePK exp_ref digits_ref gentamicin 420 8 70 97.22222222222223
                         (Some 2) "trough" None) 8
       (fun r =>
          exists c,
            snd (fst (renderChart None (PKResult.timePoints r) (PKResult.concentrations r)
                                  gentamicin (Some 2) "trough" None 0.5)) = Some c
            /\ Chart.data c
               = map curve_point (combine (PKResult.timePoints r) (PKResult.concentrations r))
            /\ List.length (Chart.data c) = List.length (PKResult.concentrations r)).
Proof.
  do 3 (split; [reflexivity|]).
  exact (curve_points exp_ref digits_ref gentamicin 420 8 70 97.22222222222223
           (Some 2) "trough" None None 0.5 eq_refl eq_refl eq_refl).
Defined.

Lemma marker_is_overlay_witness :
  continuous gentamicin = false /\ (0 <? 420) = true /\ (0 <? 8) = true
  /\ (0 <? 2) = true
  /\ overlay_time gentamicin 8 "trough" None = Some (8 - 0.1)
  /\ reaches (simulatePK exp_ref digits_ref gentamicin 420 8 70 97.22222222222223
                         (Some 2) "trough" None) 8
       (fun r =>
          exists c,
            snd (fst (renderChart None (PKResult.timePoints r) (PKResult.concentrations r)
                                  gentamicin (Some 2) "trough" None
                                  (handler_infusionTime gentamicin))) = Some c
            /\ Chart.measured c = Some {| Chart.x := at_time (8 - 0.1); Chart.y := 2 |}
            /\ last (Chart.data c) {| Chart.x := at_undefined; Chart.y := 0 |}
               = {| Chart.x := at_time (8 - 0.1); Chart.y := 2 |}).
Proof.
  do 5 (split; [reflexivity|]).
  exact (marker_is_overlay exp_ref digits_ref gentamicin 420 8 70 97.22222222222223 2
           (8 - 0.1) "trough" None None eq_refl eq_refl eq_refl eq_refl eq_refl).
Defined.

Lemma marker_without_overlay_witness :
  continuous gentamicin = false /\ (0 <? 420) = true /\ (0 <? 8) = true
  /\ (0 <? 2) = true /\ JS.truthy 0 = false
  /\ reaches (simulatePK exp_ref digits_ref gentamicin 420 8 70 97.22222222222223
                         (Some 2) "random" (or_null 0)) 8
       (fun r =>
          PKResult.timePoints r = samples 8
          /\ exists c,
               snd (fst (renderChart None (PKResult.timePoints r) (PKResult.concentrations r)
                                     gentamicin (Some 2) "random" (or_null 0)
                                     (handler_infusionTime gentamicin))) = Some c
               /\ Chart.measured c = Some {| Chart.x := at_null; Chart.y := 2 |}).
Proof.
  do 5 (split; [reflexivity|]).
  exact (marker_without_overlay exp_ref digits_ref gentamicin 420 8 70 97.22222222222223 2 0
           None eq_refl eq_refl eq_refl eq_refl eq_refl).
Defined.

Lemma verdict_between_the_lines_witness :
  aminoglycoside amikacin = true /\ (0 <? 1000) = true /\ (0 <? 12) = true
  /\ exists peakMin peakMax troughMin troughMax,
       reference_lines amikacin = Return [peakMin; peakMax; troughMin; troughMax]
       /\ reaches (simulatePK exp_ref digits_ref amikacin 1000 12 70 97.22222222222223
                              None EmptyString None) 12
            (fun r =>
               let v := pk_switch exp_ref amikacin 1000 12 70 (normalize 97.22222222222223 70) in
               PKResult.status r
               = if (Cmax v <? Chart.yMin peakMin) || (Cmin v <? Chart.yMin troughMin)
                 then "Insuficiente"%string
                 else if (Chart.yMax peakMax <? Cmax v) || (Chart.yMax troughMax <? Cmin v)
                      then "Excessiva"%string
                      else "Adequada"%string).
Proof.
  do 3 (split; [reflexivity|]).
  exact (verdict_between_the_lines exp_ref digits_ref amikacin 1000 12 70 97.22222222222223
           None EmptyString None eq_refl eq_refl eq_refl).
Defined.

Lemma report_status_witness :
  continuous gentamicin = false /\ (0 <? 420) = true /\ (0 <? 8) = true
  /\ reaches (simulatePK exp_ref digits_ref gentamicin 420 8 70 97.22222222222223
                         None EmptyString None) 8
       (fun data =>
          text_at 10 110 (generatePDF digits_ref data (adult 70) EmptyString)
          = Some ("Status: " ++ PKResult.status data)%string
          /\ PKResult.status data <> ""%string
          /\ (text_at 10 120 (generatePDF digits_ref data (adult 70) EmptyString)
              = Some "Sugestão: N/A"%string
              <-> PKResult.status data = "Adequada"%string)).
Proof.
  do 3 (split; [reflexivity|]).
  exact (report_status exp_ref digits_ref gentamicin 420 8 70 97.22222222222223
           None EmptyString None (adult 70) EmptyString eq_refl eq_refl eq_refl).
Defined.

Lemma report_not_available_witness :
  exists data,
    assess exp_ref digits_ref nan 40 years 1 gentamicin 420 8 None EmptyString None
    = Return data
    /\ text_at 10 50 (generatePDF digits_ref data (adult nan) EmptyString)
       = Some "Peso: N/A kg"%string
    /\ text_at 10 70 (generatePDF digits_ref data (adult nan) EmptyString)
       = Some "Creatinina: 1 mg/dL"%string
    /\ text_at 10 90 (generatePDF digits_ref data (adult nan) EmptyString)
       = Some "Dose: 420 mg (NaN mg/kg), Intervalo: 8 h"%string.
Proof.
  eexists. split; [vm_compute; reflexivity|].
  refine (report_not_available exp_ref digits_ref (adult nan) _ EmptyString _).
  vm_compute. reflexivity.
Defined.

Lemma vancomycin_verdict_ignores_peak_witness :
  (0 <? 1000) = true /\ (0 <? 12) = true
  /\ exists peakMin peakMax troughMin troughMax low high,
       reference_lines vancomycin_intermittent
       = Return [peakMin; peakMax; troughMin; troughMax]
       /\ auc_range (therapeuticRanges vancomycin_intermittent) = Some (low, high)
       /\ reaches (simulatePK exp_ref digits_ref vancomycin_intermittent 1000 12 70
                              97.22222222222223 None EmptyString None) 12
            (fun r =>
               let v := pk_switch exp_ref vancomycin_intermittent 1000 12 70
                                  (normalize 97.22222222222223 70) in
               PKResult.status r
               = if (auc v <? low) || (Cmin v <? Chart.yMin troughMin)
                 then "Insuficiente"%string
                 else if (high <? auc v) || (Chart.yMax troughMax <? Cmin v)
                      then "Excessiva"%string
                      else "Adequada"%string).
Proof.
  do 2 (split; [reflexivity|]).
  exact (vancomycin_verdict_ignores_peak exp_ref digits_ref 1000 12 70 97.22222222222223
           None EmptyString None eq_refl eq_refl).
Defined.

Lemma submissions_only_alert_witness :
  page_globals callee = false
  /\ let p' := submissions exp_ref digits_ref (fun _ => nan)
                           (fun _ => "parseFloatਨ is not defined"%string)
                           page_globals (fun _ => abrupt (of_engine TypeError))
                           [filled_form "70"; filled_form ""] blank_page in
     alerts p'
     = alerts blank_page
       ++ repeat ("Erro: " ++ "parseFloatਨ is not defined")%string
                 (List.length [filled_form "70"; filled_form ""])
     /\ doseStatus p' = doseStatus blank_page
     /\ doseSuggestion p' = doseSuggestion blank_page
     /\ pkParameters p' = pkParameters blank_page
     /\ results_hidden p' = results_hidden blank_page
     /\ chart p' = chart blank_page
     /\ chart_events p' = chart_events blank_page
     /\ generatePdf_onclick p' = generatePdf_onclick blank_page.
Proof.
  split; [reflexivity|].
  exact (submissions_only_alert exp_ref digits_ref (fun _ => nan)
           (fun _ => "parseFloatਨ is not defined"%string)
           page_globals (fun _ => abrupt (of_engine TypeError))
           [filled_form "70"; filled_form ""] blank_page eq_refl).
Defined.
